(** * covid19japan-data: the summariser and its validation

    A shallow embedding of [src/verify.js] (verifyDailySummary,
    verifyPatients) and of the summariser (summarize, safeParseInt,
    generateDailySummary, generatePrefectureSummary,
    generateDailyStatsForPrefecture), with the properties the
    specification states about them and further properties of the code.

    Conventions of the embedding.
    - A JavaScript number that the program uses as a counter is a [Z];
      every counter of the program stays far below 2^53, where the
      arithmetic of doubles on integers is exact.
    - A JavaScript string is a [string]; its characters are code units
      below 256.
    - An exception is a value [Throw e] of the [result] type; the text of
      the thrown message is replaced by a tagged error with the same
      payload.
    - The object [dailySummary], read only through its keys after a sort
      on unique keys, is a [gmap]; the object [prefectureSummary], whose
      enumeration order decides ties of the final sort, is an association
      list in insertion order.  The keys of both are dates and names of
      prefectures: no key is a property of Object.prototype, and no name
      of a prefecture is written like an array index, which JavaScript
      would enumerate first.  The same holds of the names of cities, the
      keys of the object [confirmedByCity], a [gmap] that is only read by
      its keys.
    - A property that the program attaches to an object after creating it
      is an [option] field, [None] while the property is absent.
    - A field of a record that the program only tests for truth is a
      [bool]; a field that it compares with a number is a [Z]. *)

From Stdlib Require Import ZArith String Ascii List Lia DecimalString.
From Stdlib Require DecimalPos.
From stdpp Require Import base tactics option list gmap strings sorting.

Local Open Scope string_scope.
Local Open Scope list_scope.
Local Open Scope Z_scope.

(** ** The fragment of JavaScript the program relies on *)

Module JS.

(** The values that reach the program's dynamically typed positions: a
    manual spreadsheet cell, a property read by a computed key.  A number
    is an integer, or a number with a fractional part, which is given by
    the decimal expansion that JavaScript prints for it: a sign, the
    digits before the point and the digits after it. *)
Inductive jsval : Type :=
| JUndefined
| JNum (z : Z)
| JFraction (negative : bool) (whole : N) (fraction : string)
| JStr (s : string).

(** ToString.  A number below 10^21 prints in plain decimal notation. *)
Definition ToString (v : jsval) : string :=
  match v with
  | JUndefined => "undefined"
  | JNum z => NilZero.string_of_int (Z.to_int z)
  | JFraction negative whole fraction =>
      (if negative then "-" else "")
        +:+ NilZero.string_of_uint (N.to_uint whole) +:+ "." +:+ fraction
  | JStr s => s
  end.

(** The property names that [for (k in array)] visits: the indices of the
    array, as decimal strings, in ascending order. *)
Definition index_key (i : nat) : string :=
  NilEmpty.string_of_uint (Nat.to_uint i).

Definition for_in_keys {A} (array : list A) : list string :=
  index_key <$> seq 0 (length array).

(** String.prototype.endsWith *)
Definition endsWith (s suffix : string) : bool :=
  bool_decide (list_ascii_of_string suffix `suffix_of` list_ascii_of_string s).

(** *** parseInt, with the radix left undefined *)

(** StrWhiteSpaceChar, restricted to code units below 256 *)
Definition isStrWhiteSpaceChar (c : ascii) : bool :=
  let n := N_of_ascii c in
  ((9 <=? n) && (n <=? 13) || (n =? 32) || (n =? 160))%N.

Fixpoint trimStart (s : string) : string :=
  match s with
  | String c s' => if isStrWhiteSpaceChar c then trimStart s' else s
  | EmptyString => EmptyString
  end.

(** The value of a character as a digit of the given radix (10 or 16). *)
Definition digitValue (radix : Z) (c : ascii) : option Z :=
  let n := Z.of_N (N_of_ascii c) in
  let v :=
    if (48 <=? n) && (n <=? 57) then Some (n - 48)
    else if (97 <=? n) && (n <=? 122) then Some (n - 87)
    else if (65 <=? n) && (n <=? 90) then Some (n - 55)
    else None in
  match v with
  | Some d => if d <? radix then Some d else None
  | None => None
  end.

(** The longest prefix made of digits of the radix, as digit values. *)
Fixpoint digitsPrefix (radix : Z) (s : string) : list Z :=
  match s with
  | String c s' =>
      match digitValue radix c with
      | Some d => d :: digitsPrefix radix s'
      | None => []
      end
  | EmptyString => []
  end.

Definition digitsValue (radix : Z) (ds : list Z) : Z :=
  fold_left (fun acc d => acc * radix + d) ds 0.

(** The string without its prefix 0x or 0X, if it has one. *)
Definition stripHexPrefix (s : string) : option string :=
  match s with
  | String c0 (String c1 r) =>
      if Ascii.eqb c0 "0" && (Ascii.eqb c1 "x" || Ascii.eqb c1 "X")
      then Some r else None
  | _ => None
  end.

(** [None] is NaN.  The result is the mathematical integer; JavaScript
    rounds it to a double, which changes nothing up to 2^53. *)
Definition parseInt (inputString : string) : option Z :=
  let s0 := trimStart inputString in
  let '(sign, s1) :=
    match s0 with
    | String c r =>
        if Ascii.eqb c "-" then (-1, r)
        else if Ascii.eqb c "+" then (1, r)
        else (1, s0)
    | EmptyString => (1, s0)
    end in
  let '(R, s2) :=
    match stripHexPrefix s1 with
    | Some r => (16, r)
    | None => (10, s1)
    end in
  match digitsPrefix R s2 with
  | [] => None
  | ds => Some (sign * digitsValue R ds)
  end.

(** An own-property view of an object: its keys in enumeration order
    and the read [o[key]]. *)
Class JSObject (A : Type) := {
  keys : A -> list string;
  get : A -> string -> jsval
}.

(** A plain object as the list of its properties. *)
Definition jsobj := list (string * jsval).

Fixpoint jsobj_get (o : jsobj) (key : string) : jsval :=
  match o with
  | [] => JUndefined
  | (k, v) :: o' => if String.eqb k key then v else jsobj_get o' key
  end.

#[global] Instance jsobj_JSObject : JSObject jsobj :=
  {| keys := fun o => o.*1; get := jsobj_get |}.

End JS.
Export JS.

(** ** src/verify.js *)

Inductive ValidationError : Type :=
| InsufficientHistory
| StaleCumulative (key : string)
| DuplicateCaseId (duplicates : list Z).

Inductive result (A : Type) : Type :=
| Ok (a : A)
| Throw (e : ValidationError).
Arguments Ok {A} a.
Arguments Throw {A} e.

Section VerifyDailySummary.

(** [s < 1] for a string [s] goes through JavaScript's StringToNumber,
    which is no part of this repository: it is a parameter here. *)
Variable string_lt_one : string -> bool.

(** [v < 1] *)
Definition js_lt_one (v : jsval) : bool :=
  match v with
  | JUndefined => false
  | JNum z => z <? 1
  | JFraction negative whole _ => negative || (whole =? 0)%N
  | JStr s => string_lt_one s
  end.

Context {A : Type} `{JSObject A}.

(** The loop [for (let key in _.keys(latestDay))]: the first key that
    throws, if any. *)
Definition staleKey (latestDay : A) : option string :=
  find (fun key => endsWith key "Cumulative" && js_lt_one (get latestDay key))
       (for_in_keys (keys latestDay)).

Definition verifyDailySummary (dailySummary : list A) : result (list A) :=
  if (length dailySummary <? 10)%nat then Throw InsufficientHistory
  else
    match last dailySummary with
    | Some latestDay =>
        match staleKey latestDay with
        | Some key => Throw (StaleCumulative key)
        | None => Ok dailySummary
        end
    | None => Ok dailySummary
    end.

End VerifyDailySummary.

(** A row of the patient sheet, with the fields the program reads.
    [dateAnnounced] and [detectedCityTown] may be absent; the two cruise
    flags are compared with the number 1. *)
Record Patient : Type := mkPatient {
  patientId : Z;
  dateAnnounced : option string;
  confirmedPatient : bool;
  patientStatus : string;
  detectedPrefecture : string;
  detectedCityTown : option string;
  cruisePassengerDisembarked : Z;
  cruiseQuarantineOfficer : Z
}.

(** One turn of the loop of verifyPatients over the state
    [(patientIds, duplicates)]. *)
Definition verifyPatientsStep (st : gmap Z Z * list Z) (patient : Patient)
  : gmap Z Z * list Z :=
  let '(patientIds, duplicates) := st in
  if patientId patient =? -1 then st
  else
    let duplicates :=
      match patientIds !! patientId patient with
      | Some _ => duplicates ++ [patientId patient]
      | None => duplicates
      end in
    (<[patientId patient := 1]> patientIds, duplicates).

Definition verifyPatients (patients : list Patient) : result (list Patient) :=
  let '(_, duplicates) := foldl verifyPatientsStep (∅, []) patients in
  if (0 <? length duplicates)%nat then Throw (DuplicateCaseId duplicates)
  else Ok patients.

(** ** The summariser *)

(** Helper method to do parseInt safely (reverts to 0 if unparse) *)
Definition safeParseInt (v : jsval) : Z :=
  match parseInt (ToString v) with
  | None => 0
  | Some result => result
  end.

(** The truth value of an optional string: absent and empty are falsy. *)
Definition truthy (s : option string) : bool :=
  match s with
  | Some (String _ _) => true
  | _ => false
  end.

(** _.sum *)
Definition sum (l : list Z) : Z := foldr Z.add 0 l.

(** _.sortBy with one iteratee: a stable sort, ascending in the key. *)
Section SortBy.
Context {A K : Type} (key : A -> K) (leb : K -> K -> bool).

Fixpoint insertBy (x : A) (l : list A) : list A :=
  match l with
  | [] => [x]
  | y :: l' => if leb (key x) (key y) then x :: l else y :: insertBy x l'
  end.

Definition sortBy (l : list A) : list A := foldr insertBy [] l.
End SortBy.

(** A row of the Sum By Day sheet. *)
Module DailyRow.
Record t : Type := mk {
  date : string;
  recovered : jsval;
  deceased : jsval;
  critical : jsval;
  tested : jsval
}.
End DailyRow.

(** An entry of the daily summary.  The first five properties are those
    of the object literal of generateDailySummary; the others are
    attached by its later passes. *)
Module Day.
Record t : Type := mk {
  confirmed : Z;
  recoveredCumulative : Z;
  deceasedCumulative : Z;
  criticalCumulative : Z;
  testedCumulative : Z;
  date : option string;
  confirmedCumulative : option Z;
  confirmedAvg3d : option Z;
  confirmedCumulativeAvg3d : option Z;
  confirmedAvg7d : option Z;
  confirmedCumulativeAvg7d : option Z
}.

Definition set_confirmed (v : Z) (o : t) : t :=
  mk v (recoveredCumulative o) (deceasedCumulative o) (criticalCumulative o)
     (testedCumulative o) (date o) (confirmedCumulative o) (confirmedAvg3d o)
     (confirmedCumulativeAvg3d o) (confirmedAvg7d o) (confirmedCumulativeAvg7d o).
Definition set_recoveredCumulative (v : Z) (o : t) : t :=
  mk (confirmed o) v (deceasedCumulative o) (criticalCumulative o)
     (testedCumulative o) (date o) (confirmedCumulative o) (confirmedAvg3d o)
     (confirmedCumulativeAvg3d o) (confirmedAvg7d o) (confirmedCumulativeAvg7d o).
Definition set_deceasedCumulative (v : Z) (o : t) : t :=
  mk (confirmed o) (recoveredCumulative o) v (criticalCumulative o)
     (testedCumulative o) (date o) (confirmedCumulative o) (confirmedAvg3d o)
     (confirmedCumulativeAvg3d o) (confirmedAvg7d o) (confirmedCumulativeAvg7d o).
Definition set_criticalCumulative (v : Z) (o : t) : t :=
  mk (confirmed o) (recoveredCumulative o) (deceasedCumulative o) v
     (testedCumulative o) (date o) (confirmedCumulative o) (confirmedAvg3d o)
     (confirmedCumulativeAvg3d o) (confirmedAvg7d o) (confirmedCumulativeAvg7d o).
Definition set_testedCumulative (v : Z) (o : t) : t :=
  mk (confirmed o) (recoveredCumulative o) (deceasedCumulative o)
     (criticalCumulative o) v (date o) (confirmedCumulative o) (confirmedAvg3d o)
     (confirmedCumulativeAvg3d o) (confirmedAvg7d o) (confirmedCumulativeAvg7d o).
Definition set_date (v : string) (o : t) : t :=
  mk (confirmed o) (recoveredCumulative o) (deceasedCumulative o)
     (criticalCumulative o) (testedCumulative o) (Some v) (confirmedCumulative o)
     (confirmedAvg3d o) (confirmedCumulativeAvg3d o) (confirmedAvg7d o)
     (confirmedCumulativeAvg7d o).
Definition set_confirmedCumulative (v : Z) (o : t) : t :=
  mk (confirmed o) (recoveredCumulative o) (deceasedCumulative o)
     (criticalCumulative o) (testedCumulative o) (date o) (Some v)
     (confirmedAvg3d o) (confirmedCumulativeAvg3d o) (confirmedAvg7d o)
     (confirmedCumulativeAvg7d o).
Definition set_confirmedAvg3d (v : Z) (o : t) : t :=
  mk (confirmed o) (recoveredCumulative o) (deceasedCumulative o)
     (criticalCumulative o) (testedCumulative o) (date o) (confirmedCumulative o)
     (Some v) (confirmedCumulativeAvg3d o) (confirmedAvg7d o)
     (confirmedCumulativeAvg7d o).
Definition set_confirmedCumulativeAvg3d (v : Z) (o : t) : t :=
  mk (confirmed o) (recoveredCumulative o) (deceasedCumulative o)
     (criticalCumulative o) (testedCumulative o) (date o) (confirmedCumulative o)
     (confirmedAvg3d o) (Some v) (confirmedAvg7d o) (confirmedCumulativeAvg7d o).
Definition set_confirmedAvg7d (v : Z) (o : t) : t :=
  mk (confirmed o) (recoveredCumulative o) (deceasedCumulative o)
     (criticalCumulative o) (testedCumulative o) (date o) (confirmedCumulative o)
     (confirmedAvg3d o) (confirmedCumulativeAvg3d o) (Some v)
     (confirmedCumulativeAvg7d o).
Definition set_confirmedCumulativeAvg7d (v : Z) (o : t) : t :=
  mk (confirmed o) (recoveredCumulative o) (deceasedCumulative o)
     (criticalCumulative o) (testedCumulative o) (date o) (confirmedCumulative o)
     (confirmedAvg3d o) (confirmedCumulativeAvg3d o) (confirmedAvg7d o) (Some v).

(** The properties of the object, in the order the program creates
    them. *)
Definition properties (o : t) : list (string * option jsval) :=
  [ ("confirmed", Some (JNum (confirmed o)));
    ("recoveredCumulative", Some (JNum (recoveredCumulative o)));
    ("deceasedCumulative", Some (JNum (deceasedCumulative o)));
    ("criticalCumulative", Some (JNum (criticalCumulative o)));
    ("testedCumulative", Some (JNum (testedCumulative o)));
    ("date", JStr <$> date o);
    ("confirmedCumulative", JNum <$> confirmedCumulative o);
    ("confirmedAvg3d", JNum <$> confirmedAvg3d o);
    ("confirmedCumulativeAvg3d", JNum <$> confirmedCumulativeAvg3d o);
    ("confirmedAvg7d", JNum <$> confirmedAvg7d o);
    ("confirmedCumulativeAvg7d", JNum <$> confirmedCumulativeAvg7d o) ].

Definition to_jsobj (o : t) : jsobj :=
  omap (fun '(k, v) => pair k <$> v) (properties o).

#[global] Instance Day_JSObject : JSObject t :=
  {| keys := fun o => keys (to_jsobj o); get := fun o => get (to_jsobj o) |}.
End Day.

(** *** generateDailySummary *)

(** The object literal of a date seen for the first time. *)
Definition newDay : Day.t :=
  Day.mk 0 0 0 0 0 None None None None None None.

(** One turn of the loop over the patients. *)
Definition countPatient (dailySummary : gmap string Day.t) (patient : Patient)
  : gmap string Day.t :=
  if negb (truthy (dateAnnounced patient)) then dailySummary
  else
    let dateAnnounced := default "" (dateAnnounced patient) in
    let dailySummary :=
      match dailySummary !! dateAnnounced with
      | Some _ => dailySummary
      | None => <[dateAnnounced := newDay]> dailySummary
      end in
    if confirmedPatient patient then
      alter (fun o => Day.set_confirmed (Day.confirmed o + 1) o)
            dateAnnounced dailySummary
    else dailySummary.

(** One turn of the loop over the manually sourced rows. *)
Definition mergeDailyRow (dailySummary : gmap string Day.t) (row : DailyRow.t)
  : gmap string Day.t :=
  match dailySummary !! DailyRow.date row with
  | Some _ =>
      alter (fun o =>
               Day.set_testedCumulative (safeParseInt (DailyRow.tested row))
                 (Day.set_criticalCumulative (safeParseInt (DailyRow.critical row))
                    (Day.set_deceasedCumulative (safeParseInt (DailyRow.deceased row))
                       (Day.set_recoveredCumulative
                          (safeParseInt (DailyRow.recovered row)) o))))
            (DailyRow.date row) dailySummary
  | None => dailySummary
  end.

(** _.map(_.sortBy(_.toPairs(dailySummary), a => a[0]), ...) *)
Definition orderByDate (dailySummary : gmap string Day.t) : list Day.t :=
  (fun v => Day.set_date v.1 v.2) <$> sortBy fst String.leb (map_to_list dailySummary).

(** The loop that fills in confirmedCumulative. *)
Fixpoint cumulate (confirmedCumulative : Z) (l : list Day.t) : list Day.t :=
  match l with
  | [] => []
  | dailySum :: l' =>
      let confirmedCumulative := confirmedCumulative + Day.confirmed dailySum in
      Day.set_confirmedCumulative confirmedCumulative dailySum
        :: cumulate confirmedCumulative l'
  end.

(** [buffer.push(x)], then the slice that keeps the last [n] values. *)
Definition pushWindow (n : nat) (buffer : list Z) (x : Z) : list Z :=
  let buffer := buffer ++ [x] in
  if (n <? length buffer)%nat then drop (length buffer - n) buffer else buffer.

(** The loop of the rolling 3/7 day averages. *)
Fixpoint rollingAverages (threeDayBuffer sevenDayBuffer : list Z)
    (confirmedCumulativeAvg3d confirmedCumulativeAvg7d : Z)
    (l : list Day.t) : list Day.t :=
  match l with
  | [] => []
  | dailySum :: l' =>
      let threeDayBuffer := pushWindow 3 threeDayBuffer (Day.confirmed dailySum) in
      let sevenDayBuffer := pushWindow 7 sevenDayBuffer (Day.confirmed dailySum) in
      let confirmedAvg3d := sum threeDayBuffer / 3 in
      let confirmedCumulativeAvg3d := confirmedCumulativeAvg3d + confirmedAvg3d in
      let confirmedAvg7d := sum sevenDayBuffer / 7 in
      let confirmedCumulativeAvg7d := confirmedCumulativeAvg7d + confirmedAvg7d in
      Day.set_confirmedCumulativeAvg7d confirmedCumulativeAvg7d
        (Day.set_confirmedAvg7d confirmedAvg7d
           (Day.set_confirmedCumulativeAvg3d confirmedCumulativeAvg3d
              (Day.set_confirmedAvg3d confirmedAvg3d dailySum)))
        :: rollingAverages threeDayBuffer sevenDayBuffer
             confirmedCumulativeAvg3d confirmedCumulativeAvg7d l'
  end.

(** The body of the forward-fill loop: [thisDay] after its four tests. *)
Definition passForward (previousDay thisDay : Day.t) : Day.t :=
  let thisDay :=
    if Day.recoveredCumulative thisDay =? 0
    then Day.set_recoveredCumulative (Day.recoveredCumulative previousDay) thisDay
    else thisDay in
  let thisDay :=
    if Day.deceasedCumulative thisDay =? 0
    then Day.set_deceasedCumulative (Day.deceasedCumulative previousDay) thisDay
    else thisDay in
  let thisDay :=
    if Day.criticalCumulative thisDay =? 0
    then Day.set_criticalCumulative (Day.criticalCumulative previousDay) thisDay
    else thisDay in
  if Day.testedCumulative thisDay =? 0
  then Day.set_testedCumulative (Day.testedCumulative previousDay) thisDay
  else thisDay.

(** The forward-fill loop from index [i] on, [previousDay] being the
    entry at [i-1] as the loop left it. *)
Fixpoint forwardFillFrom (previousDay : Day.t) (l : list Day.t) : list Day.t :=
  match l with
  | [] => []
  | thisDay :: l' =>
      let thisDay := passForward previousDay thisDay in
      thisDay :: forwardFillFrom thisDay l'
  end.

Definition forwardFill (l : list Day.t) : list Day.t :=
  match l with
  | [] => []
  | firstDay :: l' => firstDay :: forwardFillFrom firstDay l'
  end.

(** The ordered summary as generateDailySummary hands it to the
    validation. *)
Definition orderedDailySummary (patients : list Patient)
    (manualDailyData : list DailyRow.t) : list Day.t :=
  let dailySummary := foldl countPatient ∅ patients in
  let dailySummary := foldl mergeDailyRow dailySummary manualDailyData in
  let orderedDailySummary := orderByDate dailySummary in
  let orderedDailySummary := cumulate 0 orderedDailySummary in
  let orderedDailySummary := rollingAverages [] [] 0 0 orderedDailySummary in
  forwardFill orderedDailySummary.

Definition generateDailySummary (string_lt_one : string -> bool)
    (patients : list Patient) (manualDailyData : list DailyRow.t)
  : result (list Day.t) :=
  verifyDailySummary string_lt_one (orderedDailySummary patients manualDailyData).

(** *** generatePrefectureSummary *)

(** A row of the Prefecture Data sheet. *)
Module PrefectureRow.
Record t : Type := mk {
  prefecture : string;
  recovered : jsval;
  deaths : jsval;
  prefectureJa : string
}.
End PrefectureRow.

(** The summary of a prefecture.  The first six properties are those of
    the object literal of generatePrefectureSummary; [patients] is
    deleted before the summary is returned. *)
Module Prefecture.
Record t : Type := mk {
  confirmed : Z;
  cruisePassenger : Z;
  cruiseWorker : Z;
  deaths : Z;
  patients : option (list Patient);
  confirmedByCity : gmap string Z;
  dailyConfirmedCount : option (list Z);
  dailyConfirmedStartDate : option string;
  newlyConfirmed : option Z;
  recovered : option Z;
  name_ja : option string;
  name : option string
}.

Definition set_confirmed (v : Z) (o : t) : t :=
  mk v (cruisePassenger o) (cruiseWorker o) (deaths o) (patients o)
     (confirmedByCity o) (dailyConfirmedCount o) (dailyConfirmedStartDate o)
     (newlyConfirmed o) (recovered o) (name_ja o) (name o).
Definition set_cruisePassenger (v : Z) (o : t) : t :=
  mk (confirmed o) v (cruiseWorker o) (deaths o) (patients o)
     (confirmedByCity o) (dailyConfirmedCount o) (dailyConfirmedStartDate o)
     (newlyConfirmed o) (recovered o) (name_ja o) (name o).
Definition set_cruiseWorker (v : Z) (o : t) : t :=
  mk (confirmed o) (cruisePassenger o) v (deaths o) (patients o)
     (confirmedByCity o) (dailyConfirmedCount o) (dailyConfirmedStartDate o)
     (newlyConfirmed o) (recovered o) (name_ja o) (name o).
Definition set_deaths (v : Z) (o : t) : t :=
  mk (confirmed o) (cruisePassenger o) (cruiseWorker o) v (patients o)
     (confirmedByCity o) (dailyConfirmedCount o) (dailyConfirmedStartDate o)
     (newlyConfirmed o) (recovered o) (name_ja o) (name o).
Definition set_patients (v : option (list Patient)) (o : t) : t :=
  mk (confirmed o) (cruisePassenger o) (cruiseWorker o) (deaths o) v
     (confirmedByCity o) (dailyConfirmedCount o) (dailyConfirmedStartDate o)
     (newlyConfirmed o) (recovered o) (name_ja o) (name o).
Definition set_confirmedByCity (v : gmap string Z) (o : t) : t :=
  mk (confirmed o) (cruisePassenger o) (cruiseWorker o) (deaths o) (patients o)
     v (dailyConfirmedCount o) (dailyConfirmedStartDate o)
     (newlyConfirmed o) (recovered o) (name_ja o) (name o).
Definition set_dailyConfirmedCount (v : list Z) (o : t) : t :=
  mk (confirmed o) (cruisePassenger o) (cruiseWorker o) (deaths o) (patients o)
     (confirmedByCity o) (Some v) (dailyConfirmedStartDate o)
     (newlyConfirmed o) (recovered o) (name_ja o) (name o).
Definition set_dailyConfirmedStartDate (v : string) (o : t) : t :=
  mk (confirmed o) (cruisePassenger o) (cruiseWorker o) (deaths o) (patients o)
     (confirmedByCity o) (dailyConfirmedCount o) (Some v)
     (newlyConfirmed o) (recovered o) (name_ja o) (name o).
Definition set_newlyConfirmed (v : option Z) (o : t) : t :=
  mk (confirmed o) (cruisePassenger o) (cruiseWorker o) (deaths o) (patients o)
     (confirmedByCity o) (dailyConfirmedCount o) (dailyConfirmedStartDate o)
     v (recovered o) (name_ja o) (name o).
Definition set_recovered (v : Z) (o : t) : t :=
  mk (confirmed o) (cruisePassenger o) (cruiseWorker o) (deaths o) (patients o)
     (confirmedByCity o) (dailyConfirmedCount o) (dailyConfirmedStartDate o)
     (newlyConfirmed o) (Some v) (name_ja o) (name o).
Definition set_name_ja (v : string) (o : t) : t :=
  mk (confirmed o) (cruisePassenger o) (cruiseWorker o) (deaths o) (patients o)
     (confirmedByCity o) (dailyConfirmedCount o) (dailyConfirmedStartDate o)
     (newlyConfirmed o) (recovered o) (Some v) (name o).
Definition set_name (v : string) (o : t) : t :=
  mk (confirmed o) (cruisePassenger o) (cruiseWorker o) (deaths o) (patients o)
     (confirmedByCity o) (dailyConfirmedCount o) (dailyConfirmedStartDate o)
     (newlyConfirmed o) (recovered o) (name_ja o) (Some v).
End Prefecture.

(** The object [prefectureSummary]: its properties in insertion order,
    each key once. *)
Abbreviation dict V := (list (string * V)) (only parsing).

Fixpoint dict_get {V} (d : dict V) (k : string) : option V :=
  match d with
  | [] => None
  | (k', v) :: d' => if String.eqb k' k then Some v else dict_get d' k
  end.

Fixpoint dict_alter {V} (f : V -> V) (k : string) (d : dict V) : dict V :=
  match d with
  | [] => []
  | (k', v) :: d' =>
      if String.eqb k' k then (k', f v) :: d' else (k', v) :: dict_alter f k d'
  end.

(** The object literal of a prefecture seen for the first time. *)
Definition newPrefecture : Prefecture.t :=
  Prefecture.mk 0 0 0 0 (Some []) ∅ None None None None None None.

(** What one patient adds to the summary of the prefecture. *)
Definition addPatient (patient : Patient) (o : Prefecture.t) : Prefecture.t :=
  let cityName := detectedCityTown patient in
  let o :=
    if confirmedPatient patient then
      let o := Prefecture.set_confirmed (Prefecture.confirmed o + 1) o in
      let o :=
        if truthy cityName then
          let cityName := default "" cityName in
          let byCity := Prefecture.confirmedByCity o in
          Prefecture.set_confirmedByCity
            (match byCity !! cityName with
             | Some n => if n =? 0 then <[cityName := 1]> byCity
                         else <[cityName := n + 1]> byCity
             | None => <[cityName := 1]> byCity
             end) o
        else o in
      let o :=
        if cruisePassengerDisembarked patient =? 1
        then Prefecture.set_cruisePassenger (Prefecture.cruisePassenger o + 1) o
        else o in
      if cruiseQuarantineOfficer patient =? 1
      then Prefecture.set_cruiseWorker (Prefecture.cruiseWorker o + 1) o
      else o
    else o in
  let o :=
    if String.eqb (patientStatus patient) "Deceased"
    then Prefecture.set_deaths (Prefecture.deaths o + 1) o
    else o in
  Prefecture.set_patients
    (Some (default [] (Prefecture.patients o) ++ [patient])) o.

(** One turn of the loop over the patients. *)
Definition countPrefecturePatient (prefectureSummary : dict Prefecture.t)
    (patient : Patient) : dict Prefecture.t :=
  let prefectureName := detectedPrefecture patient in
  let prefectureSummary :=
    match dict_get prefectureSummary prefectureName with
    | Some _ => prefectureSummary
    | None => prefectureSummary ++ [(prefectureName, newPrefecture)]
    end in
  dict_alter (addPatient patient) prefectureName prefectureSummary.

(** One turn of the loop over the manual rows. *)
Definition mergePrefectureRow (prefectureSummary : dict Prefecture.t)
    (row : PrefectureRow.t) : dict Prefecture.t :=
  match dict_get prefectureSummary (PrefectureRow.prefecture row) with
  | Some _ =>
      dict_alter (fun o =>
                    Prefecture.set_name_ja (PrefectureRow.prefectureJa row)
                      (Prefecture.set_deaths (safeParseInt (PrefectureRow.deaths row))
                         (Prefecture.set_recovered
                            (safeParseInt (PrefectureRow.recovered row)) o)))
                 (PrefectureRow.prefecture row) prefectureSummary
  | None => prefectureSummary
  end.

(** [o.dateAnnounced == dayString] *)
Definition dateIs (dayString : string) (o : Patient) : bool :=
  match dateAnnounced o with
  | Some d => String.eqb d dayString
  | None => false
  end.

Section Moment.

(** The moment library is no part of this repository.  A moment is the
    instant it denotes, in milliseconds; the program uses
    - [moment('2020-01-08')], the local midnight of that day,
    - [day.format('YYYY-MM-DD')], the local calendar day of an instant,
    - [moment()], the clock, read once for each prefecture: [clock i]
      is the instant of the read numbered [i],
    - [day.add(1, 'days')], which adds 24 hours in a zone that has no
      daylight saving time. *)
Variable moment : string -> Z.
Variable format : Z -> string.
Variable clock : nat -> Z.

Definition oneDay : Z := 86400000.

(** The loop [while (day <= lastDay)], within [fuel] turns. *)
Fixpoint dailyStatsLoop (fuel : nat) (patients : list Patient)
    (lastDay day : Z) (daily : list Z) : list Z :=
  match fuel with
  | O => daily
  | S fuel' =>
      if day <=? lastDay then
        let dayString := format day in
        let reports :=
          List.filter (fun o => dateIs dayString o && confirmedPatient o)
                      patients in
        dailyStatsLoop fuel' patients lastDay (day + oneDay)
                       (daily ++ [Z.of_nat (length reports)])
      else daily
  end.

(** The fuel is the number of turns after which [day <= lastDay] fails. *)
Definition generateDailyStatsForPrefecture (patients : list Patient)
    (firstDay lastDay : Z) : list Z :=
  dailyStatsLoop (Z.to_nat ((lastDay - firstDay) / oneDay + 1))
                 patients lastDay firstDay [].

(** One turn of the loop over [_.keys(prefectureSummary)], the turn
    numbered [i]. *)
Definition attachDailyStats (i : nat) (entry : string * Prefecture.t)
  : string * Prefecture.t :=
  let prefecture := entry.2 in
  let firstDay := moment "2020-01-08" in
  let dailyConfirmed :=
    generateDailyStatsForPrefecture
      (default [] (Prefecture.patients prefecture)) firstDay (clock i) in
  if (0 <? length dailyConfirmed)%nat then
    (entry.1,
     Prefecture.set_newlyConfirmed (last dailyConfirmed)
       (Prefecture.set_dailyConfirmedStartDate (format firstDay)
          (Prefecture.set_dailyConfirmedCount dailyConfirmed prefecture)))
  else entry.

Definition generatePrefectureSummary (patients : list Patient)
    (manualPrefectureData : list PrefectureRow.t) : list Prefecture.t :=
  let prefectureSummary := foldl countPrefecturePatient [] patients in
  let prefectureSummary := imap attachDailyStats prefectureSummary in
  let prefectureSummary :=
    foldl mergePrefectureRow prefectureSummary manualPrefectureData in
  let prefectureSummary :=
    prod_map id (Prefecture.set_patients None) <$> prefectureSummary in
  (fun v => Prefecture.set_name v.1 v.2)
    <$> reverse (sortBy (fun a => Prefecture.confirmed a.2) Z.leb
                        prefectureSummary).

End Moment.

(** *** summarize *)

(** The order of [_.orderBy(patientData, ['dateAnnounced'], ['asc'])],
    which is no part of this repository: strings in their order, and a
    record without the property after every record with it.  The sort is
    stable, as [_.sortBy] is. *)
Definition dateAnnouncedLe (a b : option string) : bool :=
  match a, b with
  | Some x, Some y => String.leb x y
  | Some _, None => true
  | None, Some _ => false
  | None, None => true
  end.

(** The object that summarize returns. *)
Module Summary.
Record t : Type := mk {
  prefectures : list Prefecture.t;
  daily : list Day.t;
  updated : string
}.
End Summary.

Section Summarize.

Variable string_lt_one : string -> bool.
Variable moment : string -> Z.
Variable format : Z -> string.
Variable clock : nat -> Z.

(** An exception of generateDailySummary leaves summarize. *)
Definition summarize (patientData : list Patient)
    (manualDailyData : list DailyRow.t)
    (manualPrefectureData : list PrefectureRow.t) (lastUpdated : string)
  : result Summary.t :=
  let patients := sortBy dateAnnounced dateAnnouncedLe patientData in
  let prefectureSummary :=
    generatePrefectureSummary moment format clock patients
                              manualPrefectureData in
  match generateDailySummary string_lt_one patients manualDailyData with
  | Ok dailySummary =>
      Ok (Summary.mk prefectureSummary dailySummary lastUpdated)
  | Throw e => Throw e
  end.

End Summarize.

(** A calendar for the examples: the two operations of moment in a zone
    at a fixed offset from UTC, by the usual civil-calendar arithmetic. *)
Module Calendar.

Definition civil_from_days (days : Z) : Z * Z * Z :=
  let z := days + 719468 in
  let era := z / 146097 in
  let doe := z - era * 146097 in
  let yoe := (doe - doe / 1460 + doe / 36524 - doe / 146096) / 365 in
  let doy := doe - (365 * yoe + yoe / 4 - yoe / 100) in
  let mp := (5 * doy + 2) / 153 in
  let d := doy - (153 * mp + 2) / 5 + 1 in
  let m := if mp <? 10 then mp + 3 else mp - 9 in
  let y := yoe + era * 400 + (if m <=? 2 then 1 else 0) in
  (y, m, d).

Definition two_digits (n : Z) : string :=
  (if n <? 10 then "0" else "") +:+ NilZero.string_of_int (Z.to_int n).

(** [format('YYYY-MM-DD')] at [offset] minutes east of UTC, for the
    years of four digits. *)
Definition format (offset : Z) (t : Z) : string :=
  let '(y, m, d) := civil_from_days ((t + offset * 60000) / oneDay) in
  NilZero.string_of_int (Z.to_int y) +:+ "-" +:+ two_digits m
    +:+ "-" +:+ two_digits d.

(** The local midnight of 2020-01-08. *)
Definition epoch (offset : Z) : Z := 1578441600000 - offset * 60000.

(** [moment(s)] for the one date that the program parses. *)
Definition moment (offset : Z) (s : string) : Z := epoch offset.

End Calendar.

(** * The vocabulary of the statements *)

(** ** The validation *)

(** The latest day has no property that ends in Cumulative and holds a
    number below 1. *)
Definition cumulativesPositive {A : Type} `{JSObject A} (latestDay : A) : Prop :=
  forall key, key ∈ keys latestDay -> endsWith key "Cumulative" = true ->
              exists z, get latestDay key = JNum z /\ 1 <= z.

(** The number of records that carry a given id. *)
Definition occurrences (id : Z) (patients : list Patient) : nat :=
  length (List.filter (fun p => patientId p =? id) patients).

(** ** The daily summary *)

(** The four counters that come from the manual rows. *)
Definition manualCumulatives : list (Day.t -> Z) :=
  [Day.recoveredCumulative; Day.deceasedCumulative;
   Day.criticalCumulative; Day.testedCumulative].

(** The properties of a day that the forward fill leaves alone. *)
Definition sameCounts (a b : Day.t) : Prop :=
  Day.confirmed a = Day.confirmed b
  /\ Day.date a = Day.date b
  /\ Day.confirmedCumulative a = Day.confirmedCumulative b
  /\ Day.confirmedAvg3d a = Day.confirmedAvg3d b
  /\ Day.confirmedCumulativeAvg3d a = Day.confirmedCumulativeAvg3d b
  /\ Day.confirmedAvg7d a = Day.confirmedAvg7d b
  /\ Day.confirmedCumulativeAvg7d a = Day.confirmedCumulativeAvg7d b.

(** The last [n] values of a list; all of them when it has fewer. *)
Definition window (n : nat) (values : list Z) : list Z :=
  drop (length values - n) values.

(** The floor of the sum of the last min(n, k+1) of the first k+1 values,
    divided by [n]. *)
Definition windowAvg (n : nat) (values : list Z) (k : nat) : Z :=
  sum (window n (take (S k) values)) / Z.of_nat n.

(** f 0 + ... + f k *)
Definition runningSum (f : nat -> Z) (k : nat) : Z :=
  sum (f <$> seq 0 (S k)).

(** The entries are in strictly ascending order of their dates. *)
Definition datesAscending (l : list Day.t) : Prop :=
  forall i j di dj, (i < j)%nat -> l !! i = Some di -> l !! j = Some dj ->
    exists a b, Day.date di = Some a /\ Day.date dj = Some b
                /\ String.ltb a b = true.

(** confirmedCumulative is the sum of confirmed up to the entry, the
    entry included. *)
Definition cumulativeIsRunningSum (l : list Day.t) : Prop :=
  forall k d, l !! k = Some d ->
    Day.confirmedCumulative d = Some (sum (take (S k) (Day.confirmed <$> l))).

(** confirmedCumulative never decreases along the entries. *)
Definition cumulativeNonDecreasing (l : list Day.t) : Prop :=
  forall i j di dj, (i <= j)%nat -> l !! i = Some di -> l !! j = Some dj ->
    exists ci cj, Day.confirmedCumulative di = Some ci
                  /\ Day.confirmedCumulative dj = Some cj /\ ci <= cj.

(** The averages of every entry are the floors of the window sums over
    the nominal window size, and the cumulative averages their running
    sums. *)
Definition averagesHold (l : list Day.t) : Prop :=
  let counts := Day.confirmed <$> l in
  forall k d, l !! k = Some d ->
    Day.confirmedAvg3d d = Some (windowAvg 3 counts k)
    /\ Day.confirmedAvg7d d = Some (windowAvg 7 counts k)
    /\ Day.confirmedCumulativeAvg3d d = Some (runningSum (windowAvg 3 counts) k)
    /\ Day.confirmedCumulativeAvg7d d = Some (runningSum (windowAvg 7 counts) k).

(** No day of the object [dailySummary] has a negative count. *)
Definition countsNonneg (dailySummary : gmap string Day.t) : Prop :=
  forall key o, dailySummary !! key = Some o -> 0 <= Day.confirmed o.

(** The object [dailySummary] after the two loops that fill it, its
    pairs in the order of the dates, and the counts of the ordered
    summary. *)
Definition dailySummaryOf (patients : list Patient)
    (manualDailyData : list DailyRow.t) : gmap string Day.t :=
  foldl mergeDailyRow (foldl countPatient ∅ patients) manualDailyData.

Definition datedPairs (patients : list Patient)
    (manualDailyData : list DailyRow.t) : list (string * Day.t) :=
  sortBy fst String.leb (map_to_list (dailySummaryOf patients manualDailyData)).

Definition confirmedCounts (patients : list Patient)
    (manualDailyData : list DailyRow.t) : list Z :=
  Day.confirmed <$> orderedDailySummary patients manualDailyData.

(** The order of two elements by their keys. *)
Definition keyLe {A K : Type} (key : A -> K) (leb : K -> K -> bool)
    (x y : A) : Prop :=
  leb (key x) (key y) = true.

(** ** The reading of a numeral *)

Definition charCode (c : ascii) : Z := Z.of_N (N_of_ascii c).

Definition isDecimalDigit (c : ascii) : bool :=
  (48 <=? charCode c) && (charCode c <=? 57).

Definition isHexDigit (c : ascii) : bool :=
  isDecimalDigit c
  || (97 <=? charCode c) && (charCode c <=? 102)
  || (65 <=? charCode c) && (charCode c <=? 70).

Definition isSignChar (c : ascii) : bool := Ascii.eqb c "+" || Ascii.eqb c "-".

Fixpoint allChars (P : ascii -> bool) (s : string) : bool :=
  match s with
  | EmptyString => true
  | String c s' => P c && allChars P s'
  end.

Definition headIs (P : ascii -> bool) (s : string) : bool :=
  match s with
  | EmptyString => false
  | String c _ => P c
  end.

(** The value of a digit: 0-9, then a-z and A-Z from ten on. *)
Definition digitOf (c : ascii) : Z :=
  if charCode c <=? 57 then charCode c - 48
  else if 97 <=? charCode c then charCode c - 87
  else charCode c - 55.

(** The integer that a string of digits writes in the radix. *)
Definition numeral (radix : Z) (digits : string) : Z :=
  fold_left (fun acc c => acc * radix + digitOf c)
            (list_ascii_of_string digits) 0.

Inductive sign : Type := NoSign | Plus | Minus.

Definition signString (sg : sign) : string :=
  match sg with
  | NoSign => ""
  | Plus => "+"
  | Minus => "-"
  end.

Definition signValue (sg : sign) : Z :=
  match sg with
  | Minus => -1
  | _ => 1
  end.

(** What parseInt does after the blanks and the sign. *)
Definition parseBody (sg : Z) (s1 : string) : option Z :=
  let '(R, s2) :=
    match stripHexPrefix s1 with
    | Some r => (16, r)
    | None => (10, s1)
    end in
  match digitsPrefix R s2 with
  | [] => None
  | ds => Some (sg * digitsValue R ds)
  end.

(** ** The records of a prefecture *)

(** The records of a prefecture, in the order of the patients. *)
Definition regionOf (prefectureName : string) (patients : list Patient)
  : list Patient :=
  List.filter (fun p => String.eqb (detectedPrefecture p) prefectureName)
              patients.

(** The numbers of confirmed and of deceased records. *)
Definition confirmedIn (patients : list Patient) : Z :=
  Z.of_nat (length (List.filter confirmedPatient patients)).

Definition deceasedIn (patients : list Patient) : Z :=
  Z.of_nat (length (List.filter
                      (fun p => String.eqb (patientStatus p) "Deceased")
                      patients)).

(** The number of confirmed records announced on a day. *)
Definition reportsOn (dayString : string) (patients : list Patient) : Z :=
  Z.of_nat (length (List.filter
                      (fun o => dateIs dayString o && confirmedPatient o)
                      patients)).

(** The summary of a prefecture after its records [patients]. *)
Definition addPatients (o : Prefecture.t) (patients : list Patient)
  : Prefecture.t :=
  foldl (fun o p => addPatient p o) o patients.

(** What the loop over the patients does to the entry of one key. *)
Definition regionStep (prefectureName : string) (o : option Prefecture.t)
    (p : Patient) : option Prefecture.t :=
  if String.eqb (detectedPrefecture p) prefectureName
  then Some (addPatient p (default newPrefecture o))
  else o.

(** The properties of a prefecture that the manual rows leave alone. *)
Definition sameButManual (a b : Prefecture.t) : Prop :=
  Prefecture.confirmed a = Prefecture.confirmed b
  /\ Prefecture.patients a = Prefecture.patients b
  /\ Prefecture.dailyConfirmedCount a = Prefecture.dailyConfirmedCount b
  /\ Prefecture.dailyConfirmedStartDate a = Prefecture.dailyConfirmedStartDate b
  /\ Prefecture.newlyConfirmed a = Prefecture.newlyConfirmed b
  /\ Prefecture.name a = Prefecture.name b.

(** The number of days from [day] to [lastDay], both included. *)
Definition daysThrough (lastDay day : Z) : nat :=
  if day <=? lastDay then Z.to_nat ((lastDay - day) / oneDay + 1) else 0%nat.

(** The names and the counts of a summary of prefectures. *)
Definition namesAndCounts (l : list Prefecture.t) : list (option string * Z) :=
  (fun e => (Prefecture.name e, Prefecture.confirmed e)) <$> l.

(** * The inputs of the examples *)

(** A confirmed patient of a prefecture, announced on a day. *)
Definition patientOn (prefecture : string) (day : string) : Patient :=
  mkPatient (-1) (Some day) true "Hospitalized" prefecture None 0 0.

(** One confirmed patient on each of ten days, and no manual data. *)
Definition tenDays : list Patient :=
  patientOn "Tokyo"
    <$> ["2020-03-01"; "2020-03-02"; "2020-03-03"; "2020-03-04"; "2020-03-05";
         "2020-03-06"; "2020-03-07"; "2020-03-08"; "2020-03-09"; "2020-03-10"].

(** A finished day whose Cumulative fields are all positive. *)
Definition goodDay : Day.t :=
  Day.mk 1 5 2 1 90 (Some "2020-03-10") (Some 10) (Some 1) (Some 8) (Some 1) (Some 4).

(** Nine such days. *)
Definition nineDays : list Day.t := replicate 9 goodDay.

(** 1, 2, 3 and 4 confirmed patients on four days in a row. *)
Definition fourDays : list Patient :=
  patientOn "Tokyo"
    <$> ["2020-03-01";
         "2020-03-02"; "2020-03-02";
         "2020-03-03"; "2020-03-03"; "2020-03-03";
         "2020-03-04"; "2020-03-04"; "2020-03-04"; "2020-03-04"].

(** 5 confirmed patients in Aichi, 20 in Tokyo and 1 in Osaka. *)
Definition threeRegions : list Patient :=
  replicate 5 (patientOn "Aichi" "2020-03-01")
    ++ replicate 20 (patientOn "Tokyo" "2020-03-02")
    ++ replicate 1 (patientOn "Osaka" "2020-03-03").

(** A deceased confirmed patient without a date of announcement. *)
Definition undatedPatient : Patient :=
  mkPatient (-1) None true "Deceased" "Tokyo" None 0 0.

(** A clock that stands at 01:00 on 2020-03-10, Japan time. *)
Definition tenthOfMarch : nat -> Z :=
  fun _ => Calendar.epoch 540 + 62 * oneDay + 3600000.

(** * The vocabulary of the further properties *)

(** ** The daily summary *)

(** The records that generateDailySummary groups under a day. *)
Definition patientsOn (day : string) (patients : list Patient) : list Patient :=
  List.filter (fun p => truthy (dateAnnounced p) && dateIs day p) patients.

(** What a patient of the day does to the entry of the day. *)
Definition bumpDay (p : Patient) (o : Day.t) : Day.t :=
  if confirmedPatient p then Day.set_confirmed (Day.confirmed o + 1) o else o.

(** What the loop over the patients does to the entry of one day. *)
Definition dayStep (day : string) (o : option Day.t) (p : Patient)
  : option Day.t :=
  if truthy (dateAnnounced p) && dateIs day p
  then Some (bumpDay p (default newDay o))
  else o.

(** The four assignments of the loop over the manual rows. *)
Definition applyDailyRow (row : DailyRow.t) (o : Day.t) : Day.t :=
  Day.set_testedCumulative (safeParseInt (DailyRow.tested row))
    (Day.set_criticalCumulative (safeParseInt (DailyRow.critical row))
       (Day.set_deceasedCumulative (safeParseInt (DailyRow.deceased row))
          (Day.set_recoveredCumulative
             (safeParseInt (DailyRow.recovered row)) o))).

(** The manual rows of a day, in the order of the sheet. *)
Definition rowsOn (day : string) (rows : list DailyRow.t) : list DailyRow.t :=
  List.filter (fun row => String.eqb (DailyRow.date row) day) rows.

(** The distinct dates of announcement of the patients. *)
Definition announcedDates (patients : list Patient) : list string :=
  remove_dups
    (omap (fun p => if truthy (dateAnnounced p) then dateAnnounced p else None)
          patients).

(** The four manual counters of a day, each with the cell it comes from. *)
Definition manualFields : list ((Day.t -> Z) * (DailyRow.t -> jsval)) :=
  [(Day.recoveredCumulative, DailyRow.recovered);
   (Day.deceasedCumulative, DailyRow.deceased);
   (Day.criticalCumulative, DailyRow.critical);
   (Day.testedCumulative, DailyRow.tested)].

(** The value that the manual sheet gives for a day: the cell of the last
    row of the day, parsed, and 0 without a row. *)
Definition manualValue (cell : DailyRow.t -> jsval) (day : string)
    (rows : list DailyRow.t) : Z :=
  match last (rowsOn day rows) with
  | Some row => safeParseInt (cell row)
  | None => 0
  end.


(** The distinct dates of announcement in ascending order. *)
Definition sortedDates (patients : list Patient) : list string :=
  sortBy id String.leb (announcedDates patients).


(** The summary as the forward-fill loop finds it. *)
Definition beforeForwardFill (patients : list Patient)
    (manualDailyData : list DailyRow.t) : list Day.t :=
  rollingAverages [] [] 0 0
    (cumulate 0 (orderByDate (dailySummaryOf patients manualDailyData))).


(** ** The summary of the prefectures *)

(** The three assignments of the loop over the manual rows. *)
Definition applyPrefectureRow (row : PrefectureRow.t) (o : Prefecture.t)
  : Prefecture.t :=
  Prefecture.set_name_ja (PrefectureRow.prefectureJa row)
    (Prefecture.set_deaths (safeParseInt (PrefectureRow.deaths row))
       (Prefecture.set_recovered
          (safeParseInt (PrefectureRow.recovered row)) o)).

(** The manual rows of a prefecture, in the order of the sheet. *)
Definition prefectureRowsOf (prefectureName : string)
    (rows : list PrefectureRow.t) : list PrefectureRow.t :=
  List.filter
    (fun row => String.eqb (PrefectureRow.prefecture row) prefectureName) rows.

(** The last row of a list, applied, if there is one. *)
Definition applyLastRow (rows : list PrefectureRow.t) (o : Prefecture.t)
  : Prefecture.t :=
  match last rows with
  | Some row => applyPrefectureRow row o
  | None => o
  end.

(** [o.detectedCityTown] is the city. *)
Definition cityIs (city : string) (p : Patient) : bool :=
  match detectedCityTown p with
  | Some c => String.eqb c city
  | None => false
  end.






(** ** The series of a prefecture *)

(** The days of the series from [firstDay] to [lastDay], as the calendar
    prints them. *)
Definition seriesDays (format : Z -> string) (firstDay lastDay : Z)
  : list string :=
  (fun n => format (firstDay + Z.of_nat n * oneDay))
    <$> seq 0 (daysThrough lastDay firstDay).

(** The confirmed records announced on one of the days. *)
Definition announcedOn (days : list string) (patients : list Patient)
  : list Patient :=
  List.filter (fun o => confirmedPatient o && existsb (fun d => dateIs d o) days)
              patients.


(** * Properties *)

(** ** verifyDailySummary *)

Section VerifyDailySummaryFacts.

Variable string_lt_one : string -> bool.
Context {A : Type} `{JSObject A}.

(** An array index is written with decimal digits only. *)
Lemma string_of_uint_no_e (d : Decimal.uint) :
  "e"%char ∉ list_ascii_of_string (NilEmpty.string_of_uint d).
Proof.
  induction d; simpl; rewrite ?elem_of_cons;
    [apply not_elem_of_nil | intros [Heq | Hin]; [discriminate Heq | tauto] ..].
Qed.

Lemma endsWith_Cumulative_e (s : string) :
  endsWith s "Cumulative" = true -> "e"%char ∈ list_ascii_of_string s.
Proof.
  unfold endsWith. intros Hs. apply bool_decide_eq_true in Hs.
  destruct Hs as [k ->]. apply elem_of_app. right. simpl.
  do 9 (apply elem_of_cons; right). apply elem_of_cons. by left.
Qed.

Lemma index_key_not_Cumulative (i : nat) :
  endsWith (index_key i) "Cumulative" = false.
Proof.
  destruct (endsWith (index_key i) "Cumulative") eqn:E; [|done].
  apply endsWith_Cumulative_e in E.
  by apply string_of_uint_no_e in E.
Qed.

(** The loop over the keys of the latest day never throws: it visits
    the indices of the array of keys, not the keys. *)
Lemma staleKey_None (latestDay : A) : staleKey string_lt_one latestDay = None.
Proof.
  unfold staleKey, for_in_keys.
  generalize (seq 0 (length (keys latestDay))) as l.
  induction l as [|i l IH]; [done|].
  simpl. by rewrite index_key_not_Cumulative.
Qed.

Lemma verifyDailySummary_unfold (dailySummary : list A) :
  verifyDailySummary string_lt_one dailySummary
  = if (length dailySummary <? 10)%nat then Throw InsufficientHistory
    else Ok dailySummary.
Proof.
  unfold verifyDailySummary.
  destruct (length dailySummary <? 10)%nat; [done|].
  destruct (last dailySummary); [|done].
  by rewrite staleKey_None.
Qed.

Lemma verifyDailySummary_short (dailySummary : list A) :
  (length dailySummary < 10)%nat ->
  verifyDailySummary string_lt_one dailySummary = Throw InsufficientHistory.
Proof.
  intros Hlen. rewrite verifyDailySummary_unfold.
  by apply Nat.ltb_lt in Hlen as ->.
Qed.

Lemma verifyDailySummary_long (dailySummary : list A) :
  (10 <= length dailySummary)%nat ->
  verifyDailySummary string_lt_one dailySummary = Ok dailySummary.
Proof.
  intros Hlen. rewrite verifyDailySummary_unfold.
  by apply Nat.ltb_ge in Hlen as ->.
Qed.

Lemma verifyDailySummary_Ok_inv (dailySummary out : list A) :
  verifyDailySummary string_lt_one dailySummary = Ok out ->
  out = dailySummary /\ (10 <= length dailySummary)%nat.
Proof.
  rewrite verifyDailySummary_unfold.
  destruct (length dailySummary <? 10)%nat eqn:E; [done|].
  apply Nat.ltb_ge in E. intros [= <-]. done.
Qed.

(** C6.  verifyDailySummary throws InsufficientHistory exactly when the
    series has fewer than 10 entries; so it throws on every series of 9
    entries, and the same series followed by a tenth day whose
    Cumulative fields are all at least 1 is returned as it is. *)
Theorem verifyDailySummary_InsufficientHistory (dailySummary : list A) :
  (verifyDailySummary string_lt_one dailySummary = Throw InsufficientHistory
   <-> (length dailySummary < 10)%nat)
  /\ (length dailySummary = 9%nat ->
      verifyDailySummary string_lt_one dailySummary = Throw InsufficientHistory
      /\ forall latestDay, cumulativesPositive latestDay ->
           verifyDailySummary string_lt_one (dailySummary ++ [latestDay])
           = Ok (dailySummary ++ [latestDay]))
  /\ (forall latestDay, (10 <= length dailySummary)%nat ->
        last dailySummary = Some latestDay -> cumulativesPositive latestDay ->
        verifyDailySummary string_lt_one dailySummary = Ok dailySummary).
Proof.
  split; [|split].
  - rewrite verifyDailySummary_unfold.
    destruct (length dailySummary <? 10)%nat eqn:E.
    + apply Nat.ltb_lt in E. done.
    + apply Nat.ltb_ge in E. split; [done | lia].
  - intros Hlen. split.
    + apply verifyDailySummary_short. lia.
    + intros latestDay _. apply verifyDailySummary_long.
      rewrite length_app. simpl. lia.
  - intros latestDay Hlen _ _. by apply verifyDailySummary_long.
Qed.

End VerifyDailySummaryFacts.

Lemma goodDay_cumulativesPositive : cumulativesPositive goodDay.
Proof.
  intros key Hin Hends. simpl in Hin.
  repeat (apply elem_of_cons in Hin as [-> | Hin]);
    try (exfalso; by vm_compute in Hends);
    try (eexists; split; [reflexivity | done]).
  by apply elem_of_nil in Hin.
Qed.

Lemma verifyDailySummary_InsufficientHistory_witness :
  verifyDailySummary (fun _ => false) nineDays = Throw InsufficientHistory
  /\ verifyDailySummary (fun _ => false) (nineDays ++ [goodDay])
     = Ok (nineDays ++ [goodDay]).
Proof.
  destruct (verifyDailySummary_InsufficientHistory (fun _ => false) nineDays)
    as (_ & H9 & _).
  destruct (H9 eq_refl) as [Hthrow Hok].
  split; [exact Hthrow | exact (Hok goodDay goodDay_cumulativesPositive)].
Defined.

(** C1.  The check of the latest day's Cumulative fields never fires.  Ten
    days of patients without manual data give a summary whose latest day
    has [recoveredCumulative = 0], and generateDailySummary returns it
    instead of throwing StaleCumulative. *)
Theorem verifyDailySummary_stale_latest_day_accepted (string_lt_one : string -> bool) :
  exists latestDay,
    last (orderedDailySummary tenDays []) = Some latestDay
    /\ "recoveredCumulative" ∈ keys latestDay
    /\ endsWith "recoveredCumulative" "Cumulative" = true
    /\ get latestDay "recoveredCumulative" = JNum 0
    /\ js_lt_one string_lt_one (get latestDay "recoveredCumulative") = true
    /\ generateDailySummary string_lt_one tenDays []
       = Ok (orderedDailySummary tenDays []).
Proof.
  eexists. split; [by vm_compute|].
  split; [|split; [|split; [|split]]].
  - simpl. apply elem_of_cons. right. apply elem_of_cons. by left.
  - by vm_compute.
  - by vm_compute.
  - by vm_compute.
  - unfold generateDailySummary. apply verifyDailySummary_long.
    by vm_compute.
Qed.

(** ** verifyPatients *)

Lemma occurrences_snoc id patients p :
  occurrences id (patients ++ [p])
  = (occurrences id patients + if (patientId p =? id)%Z then 1 else 0)%nat.
Proof.
  unfold occurrences. rewrite List.filter_app, length_app. simpl.
  by destruct (patientId p =? id).
Qed.

(** The state of the loop after the patients: the ids seen, and the ids
    pushed as duplicates. *)
Lemma verifyPatients_loop patients :
  forall patientIds duplicates,
    foldl verifyPatientsStep (∅, []) patients = (patientIds, duplicates) ->
    (forall id, is_Some (patientIds !! id)
                <-> id <> -1 /\ (1 <= occurrences id patients)%nat)
    /\ (forall id, id ∈ duplicates
                   <-> id <> -1 /\ (2 <= occurrences id patients)%nat).
Proof.
  induction patients as [|p patients IH] using rev_ind; intros m dups.
  - intros [= <- <-]. split; intros id.
    + rewrite lookup_empty. unfold occurrences. simpl.
      split; [by intros [? ?] | lia].
    + unfold occurrences. simpl. split; [by intros ?%elem_of_nil | lia].
  - rewrite foldl_snoc.
    destruct (foldl verifyPatientsStep (∅, []) patients) as [m0 d0].
    destruct (IH m0 d0 eq_refl) as [Hm Hd]. clear IH.
    unfold verifyPatientsStep.
    destruct (patientId p =? -1) eqn:Esent.
    + apply Z.eqb_eq in Esent. intros [= <- <-].
      split; intros id; rewrite occurrences_snoc;
        [rewrite Hm | rewrite Hd];
        (destruct (patientId p =? id) eqn:E;
         [apply Z.eqb_eq in E; split; intros [? ?]; [congruence | congruence]
         | rewrite Nat.add_0_r; done]).
    + apply Z.eqb_neq in Esent. intros [= <- <-].
      split; intros id; rewrite occurrences_snoc.
      * destruct (patientId p =? id) eqn:E.
        -- apply Z.eqb_eq in E. subst id. rewrite lookup_insert_eq.
           split; [intros _; split; [done | lia] | intros _; by eexists].
        -- apply Z.eqb_neq in E. rewrite lookup_insert_ne by done.
           rewrite Hm, Nat.add_0_r. done.
      * destruct (patientId p =? id) eqn:E.
        -- apply Z.eqb_eq in E. subst id.
           destruct (m0 !! patientId p) as [v|] eqn:Elook.
           ++ assert (is_Some (m0 !! patientId p)) as Hs by (by eexists).
              apply Hm in Hs as [_ Hocc].
              rewrite elem_of_app, list_elem_of_singleton.
              split; [intros _; split; [done | lia] | intros _; by right].
           ++ assert (~ is_Some (m0 !! patientId p)) as Hn
                  by (rewrite Elook; by intros [? ?]).
              rewrite Hm in Hn. rewrite Hd.
              split; [intros [_ ?]; split; [done | lia] | intros [_ ?]].
              exfalso. apply Hn. split; [done | lia].
        -- apply Z.eqb_neq in E. rewrite Nat.add_0_r. rewrite <- Hd.
           destruct (m0 !! patientId p); [|done].
           rewrite elem_of_app, list_elem_of_singleton.
           split; [intros [? | ?]; [done | congruence] | by left].
Qed.

Lemma occurrences_sentinels id patients :
  (forall p, p ∈ patients -> patientId p = -1) -> id <> -1 ->
  occurrences id patients = 0%nat.
Proof.
  intros Hall Hid. unfold occurrences.
  induction patients as [|p patients IH]; [done|].
  simpl. rewrite (Hall p) by (apply elem_of_cons; by left).
  destruct (-1 =? id) eqn:E; [apply Z.eqb_eq in E; congruence|].
  apply IH. intros q Hq. apply Hall. apply elem_of_cons. by right.
Qed.

(** C5.  verifyPatients throws DuplicateCaseId exactly when an id other
    than -1 occurs more than once, the thrown list then holds exactly
    those ids; records of id -1 alone never make it throw; on success the
    input is returned as it is; two records of id 42 throw a list that
    holds 42. *)
Theorem verifyPatients_DuplicateCaseId (patients : list Patient) :
  match verifyPatients patients with
  | Ok out =>
      out = patients
      /\ forall id, id <> -1 -> (occurrences id patients <= 1)%nat
  | Throw (DuplicateCaseId duplicates) =>
      (exists id, id <> -1 /\ (2 <= occurrences id patients)%nat)
      /\ forall id, id ∈ duplicates
                    <-> id <> -1 /\ (2 <= occurrences id patients)%nat
  | Throw _ => False
  end
  /\ ((forall p, p ∈ patients -> patientId p = -1) ->
      verifyPatients patients = Ok patients)
  /\ (forall p q, patientId p = 42 -> patientId q = 42 ->
      verifyPatients [p; q] = Throw (DuplicateCaseId [42])).
Proof.
  assert (Hmain :
    match verifyPatients patients with
    | Ok out =>
        out = patients
        /\ forall id, id <> -1 -> (occurrences id patients <= 1)%nat
    | Throw (DuplicateCaseId duplicates) =>
        (exists id, id <> -1 /\ (2 <= occurrences id patients)%nat)
        /\ forall id, id ∈ duplicates
                      <-> id <> -1 /\ (2 <= occurrences id patients)%nat
    | Throw _ => False
    end).
  { unfold verifyPatients.
    destruct (foldl verifyPatientsStep (∅, []) patients) as [m dups] eqn:E.
    destruct (verifyPatients_loop patients m dups E) as [_ Hd].
    destruct dups as [|d dups]; simpl.
    - split; [done|]. intros id Hid.
      destruct (le_lt_dec (occurrences id patients) 1) as [?|Hlt]; [done|].
      exfalso. eapply (not_elem_of_nil id). apply Hd. split; [done | lia].
    - split; [|done]. exists d. apply Hd. apply elem_of_cons. by left. }
  split; [exact Hmain|]. split.
  - intros Hall. destruct (verifyPatients patients) as [out|e]; [by destruct Hmain as [-> _]|].
    destruct e; try done. destruct Hmain as [[id [Hid Hocc]] _].
    rewrite (occurrences_sentinels id patients Hall Hid) in Hocc. lia.
  - intros p q Hp Hq. unfold verifyPatients, verifyPatientsStep. simpl.
    rewrite Hp, Hq. simpl. rewrite lookup_insert_eq. done.
Qed.

Lemma verifyPatients_DuplicateCaseId_witness :
  verifyPatients (patientOn "Tokyo" <$> ["2020-03-01"; "2020-03-02"])
  = Ok (patientOn "Tokyo" <$> ["2020-03-01"; "2020-03-02"]).
Proof.
  apply (verifyPatients_DuplicateCaseId
           (patientOn "Tokyo" <$> ["2020-03-01"; "2020-03-02"])).
  intros p Hp. simpl in Hp.
  repeat (apply elem_of_cons in Hp as [-> | Hp]); try reflexivity.
  by apply elem_of_nil in Hp.
Defined.

(** ** The forward fill *)

Lemma passForward_field previousDay thisDay field :
  field ∈ manualCumulatives ->
  field (passForward previousDay thisDay)
  = if field thisDay =? 0 then field previousDay else field thisDay.
Proof.
  intros Hin. unfold manualCumulatives in Hin.
  repeat (apply elem_of_cons in Hin as [-> | Hin]);
    [..| by apply elem_of_nil in Hin];
    unfold passForward;
    destruct (Day.recoveredCumulative thisDay =? 0) eqn:E1; simpl;
    destruct (Day.deceasedCumulative thisDay =? 0) eqn:E2; simpl;
    destruct (Day.criticalCumulative thisDay =? 0) eqn:E3; simpl;
    destruct (Day.testedCumulative thisDay =? 0) eqn:E4; simpl;
    reflexivity.
Qed.

Lemma passForward_sameCounts previousDay thisDay :
  sameCounts (passForward previousDay thisDay) thisDay.
Proof.
  unfold passForward, sameCounts.
  destruct (Day.recoveredCumulative thisDay =? 0); simpl;
    destruct (Day.deceasedCumulative thisDay =? 0); simpl;
    destruct (Day.criticalCumulative thisDay =? 0); simpl;
    destruct (Day.testedCumulative thisDay =? 0); simpl;
    repeat split.
Qed.

Lemma forwardFillFrom_length previousDay l :
  length (forwardFillFrom previousDay l) = length l.
Proof.
  revert previousDay. induction l as [|d l IH]; intros p; simpl; [done|].
  by rewrite IH.
Qed.

Lemma forwardFill_length l : length (forwardFill l) = length l.
Proof. destruct l; simpl; [done|]. by rewrite forwardFillFrom_length. Qed.

Lemma forwardFillFrom_step l : forall first i previousDay thisDay,
  l !! i = Some thisDay ->
  (first :: forwardFillFrom first l) !! i = Some previousDay ->
  forwardFillFrom first l !! i = Some (passForward previousDay thisDay).
Proof.
  induction l as [|d l IH]; intros first i p t Ht Hp; [done|].
  destruct i as [|i]; simpl in *.
  - by simplify_eq.
  - by apply IH.
Qed.

Lemma forwardFill_step l i previousDay thisDay :
  l !! S i = Some thisDay ->
  forwardFill l !! i = Some previousDay ->
  forwardFill l !! S i = Some (passForward previousDay thisDay).
Proof.
  destruct l as [|first l]; [done|]. simpl.
  intros Ht Hp. by apply forwardFillFrom_step.
Qed.

Lemma forwardFill_head l : forwardFill l !! 0%nat = l !! 0%nat.
Proof. by destruct l. Qed.

Lemma forwardFill_sameCounts l : Forall2 sameCounts (forwardFill l) l.
Proof.
  destruct l as [|first l]; simpl; [constructor|].
  constructor; [by repeat split|].
  generalize first at 1.
  induction l as [|d l IH]; intros p; simpl; constructor.
  - apply passForward_sameCounts.
  - apply IH.
Qed.

(** C4.  In the forward-fill pass the first entry is kept; in every later
    entry each of the four manual Cumulative fields that is exactly 0 takes
    the value that the previous entry has after the pass, and a field that
    is not 0 keeps its value; the other properties are kept.  So a 0 on
    day N after a nonzero V on day N-1 becomes V. *)
Theorem forwardFill_spec (l : list Day.t) :
  length (forwardFill l) = length l
  /\ forwardFill l !! 0%nat = l !! 0%nat
  /\ (forall i thisDay,
        l !! S i = Some thisDay ->
        exists previousDay filled,
          forwardFill l !! i = Some previousDay
          /\ forwardFill l !! S i = Some filled
          /\ sameCounts filled thisDay
          /\ forall field, field ∈ manualCumulatives ->
               field filled
               = if field thisDay =? 0 then field previousDay
                 else field thisDay)
  /\ (forall N dayBefore dayN field V,
        field ∈ manualCumulatives ->
        l !! N = Some dayBefore -> l !! S N = Some dayN ->
        field dayBefore = V -> V <> 0 -> field dayN = 0 ->
        exists filled, forwardFill l !! S N = Some filled /\ field filled = V).
Proof.
  assert (Hstep : forall i thisDay,
        l !! S i = Some thisDay ->
        exists previousDay filled,
          forwardFill l !! i = Some previousDay
          /\ forwardFill l !! S i = Some filled
          /\ sameCounts filled thisDay
          /\ forall field, field ∈ manualCumulatives ->
               field filled
               = if field thisDay =? 0 then field previousDay
                 else field thisDay).
  { intros i thisDay Ht.
    destruct (lookup_lt_is_Some_2 (forwardFill l) i) as [p Hp].
    { rewrite forwardFill_length. apply lookup_lt_Some in Ht. lia. }
    exists p, (passForward p thisDay).
    split; [done|]. split; [by apply forwardFill_step|].
    split; [apply passForward_sameCounts|].
    intros field Hf. by apply passForward_field. }
  split; [apply forwardFill_length|].
  split; [apply forwardFill_head|].
  split; [exact Hstep|].
  intros N dayBefore dayN field V Hf Hb Hn HV Hnz H0.
  destruct (Hstep N dayN Hn) as (p & filled & Hp & Hfilled & _ & Hfield).
  exists filled. split; [done|].
  rewrite (Hfield field Hf), H0. simpl.
  destruct N as [|N].
  - rewrite forwardFill_head in Hp. by simplify_eq.
  - destruct (Hstep N dayBefore Hb) as (p' & filled' & _ & Hfilled' & _ & Hfield').
    simplify_eq. rewrite (Hfield' field Hf).
    by destruct (field dayBefore =? 0) eqn:E; [apply Z.eqb_eq in E|].
Qed.

Lemma forwardFill_spec_witness :
  exists filled,
    forwardFill [goodDay; newDay] !! 1%nat = Some filled
    /\ Day.testedCumulative filled = 90.
Proof.
  destruct (forwardFill_spec [goodDay; newDay]) as (_ & _ & _ & H).
  apply (H 0%nat goodDay newDay Day.testedCumulative 90).
  - unfold manualCumulatives. do 3 (apply elem_of_cons; right).
    apply elem_of_cons. by left.
  - reflexivity.
  - reflexivity.
  - reflexivity.
  - lia.
  - reflexivity.
Defined.

(** ** The stable sort *)

Section SortByFacts.
Context {A K : Type} (key : A -> K) (leb : K -> K -> bool).
Hypothesis leb_total : forall a b, leb a b = true \/ leb b a = true.
Hypothesis leb_trans :
  forall a b c, leb a b = true -> leb b c = true -> leb a c = true.

Local Abbreviation keyLe := (keyLe key leb).

Lemma insertBy_Permutation x l : insertBy key leb x l ≡ₚ x :: l.
Proof.
  induction l as [|y l IH]; simpl; [done|].
  destruct (leb (key x) (key y)); [done|].
  rewrite IH. apply Permutation_swap.
Qed.

Lemma sortBy_Permutation l : sortBy key leb l ≡ₚ l.
Proof.
  induction l as [|x l IH]; simpl; [done|].
  by rewrite insertBy_Permutation, IH.
Qed.

Lemma insertBy_sorted x l :
  StronglySorted keyLe l -> StronglySorted keyLe (insertBy key leb x l).
Proof.
  induction l as [|y l IH]; intros Hs; simpl.
  - repeat constructor.
  - apply StronglySorted_cons in Hs as [Hy Hl].
    destruct (leb (key x) (key y)) eqn:E.
    + apply StronglySorted_cons. split; [|by apply StronglySorted_cons].
      constructor; [done|].
      eapply Forall_impl; [exact Hy|]. intros z Hz. by eapply leb_trans.
    + apply StronglySorted_cons. split; [|by apply IH].
      rewrite insertBy_Permutation. constructor; [|done].
      unfold keyLe. destruct (leb_total (key x) (key y)); congruence.
Qed.

Lemma sortBy_sorted l : StronglySorted keyLe (sortBy key leb l).
Proof.
  induction l as [|x l IH]; simpl; [constructor|]. by apply insertBy_sorted.
Qed.

Lemma sorted_NoDup_strict l :
  StronglySorted keyLe l -> NoDup (key <$> l) ->
  StronglySorted (fun x y => keyLe x y /\ key x <> key y) l.
Proof.
  induction l as [|x l IH]; intros Hs Hn; [constructor|].
  apply StronglySorted_cons in Hs as [Hx Hl].
  rewrite fmap_cons in Hn. apply NoDup_cons in Hn as [Hnotin Hn].
  apply StronglySorted_cons. split; [|by apply IH].
  apply Forall_forall. intros y Hy. split.
  - by eapply Forall_forall in Hx.
  - intros Heq. apply Hnotin. rewrite Heq. by apply list_elem_of_fmap_2.
Qed.
End SortByFacts.

Lemma StronglySorted_lookup {A} (R : A -> A -> Prop) l i j x y :
  StronglySorted R l -> (i < j)%nat ->
  l !! i = Some x -> l !! j = Some y -> R x y.
Proof.
  intros Hs. revert i j. induction Hs as [|a l Hs IH Ha]; intros i j Hij Hi Hj.
  - done.
  - destruct j as [|j]; [lia|]. destruct i as [|i]; simpl in *.
    + simplify_eq. eapply Forall_forall in Ha; [done|].
      by eapply list_elem_of_lookup_2.
    + eapply IH; [|done..]. lia.
Qed.

Lemma StronglySorted_weaken {A} (R R' : A -> A -> Prop) l :
  (forall x y, R x y -> R' x y) -> StronglySorted R l -> StronglySorted R' l.
Proof.
  intros HR. induction 1 as [|a l Hs IH Ha]; constructor; [done|].
  eapply Forall_impl; [exact Ha | apply HR].
Qed.

Lemma String_leb_trans (a b c : string) :
  String.leb a b = true -> String.leb b c = true -> String.leb a c = true.
Proof.
  intros H1 H2. apply Is_true_true.
  apply Is_true_true in H1, H2.
  change (String.le a c). by etrans.
Qed.

Lemma String_leb_ne_ltb (a b : string) :
  String.leb a b = true -> a <> b -> String.ltb a b = true.
Proof.
  unfold String.leb, String.ltb.
  destruct (String.compare a b) eqn:E; [|done..].
  apply String.compare_eq_iff in E. congruence.
Qed.

(** ** The passes of generateDailySummary *)

Lemma sum_app l1 l2 : sum (l1 ++ l2) = sum l1 + sum l2.
Proof. unfold sum. induction l1 as [|x l1 IH]; simpl; [done|]. rewrite IH. lia. Qed.

Lemma sum_nonneg l : Forall (fun x => 0 <= x) l -> 0 <= sum l.
Proof. unfold sum. induction 1; simpl; lia. Qed.

Lemma cumulate_lookup l : forall c k d,
  l !! k = Some d ->
  cumulate c l !! k
  = Some (Day.set_confirmedCumulative
            (c + sum (take (S k) (Day.confirmed <$> l))) d).
Proof.
  induction l as [|x l IH]; intros c k d Hk; [done|].
  destruct k as [|k]; simpl in *.
  - simplify_eq. unfold sum. simpl. by rewrite Z.add_0_r.
  - rewrite (IH _ _ _ Hk). do 2 f_equal. unfold sum. simpl.
    fold (sum (take (S k) (Day.confirmed <$> l))). by rewrite Z.add_assoc.
Qed.

Lemma cumulate_length c l : length (cumulate c l) = length l.
Proof. revert c. induction l as [|x l IH]; intros c; simpl; [done|]. by rewrite IH. Qed.

Lemma pushWindow_window n buffer x :
  pushWindow n buffer x = window n (buffer ++ [x]).
Proof.
  unfold pushWindow, window.
  destruct (n <? length (buffer ++ [x]))%nat eqn:E; [done|].
  apply Nat.ltb_ge in E.
  by replace (length (buffer ++ [x]) - n)%nat with 0%nat by lia.
Qed.

Lemma window_snoc n values x :
  window n (window n values ++ [x]) = window n (values ++ [x]).
Proof.
  unfold window.
  rewrite <- (drop_app_le values [x]) by lia.
  rewrite drop_drop. f_equal.
  rewrite length_drop, !length_app. simpl. lia.
Qed.

Lemma rollingAverages_length b3 b7 c3 c7 l :
  length (rollingAverages b3 b7 c3 c7 l) = length l.
Proof.
  revert b3 b7 c3 c7. induction l as [|x l IH]; intros; simpl; [done|].
  by rewrite IH.
Qed.

Lemma pushWindow_avg n seen x rest :
  sum (pushWindow n (window n seen) x) / Z.of_nat n
  = windowAvg n (seen ++ x :: rest) (length seen + 0).
Proof.
  unfold windowAvg. rewrite pushWindow_window, window_snoc.
  rewrite Nat.add_0_r, take_app, take_ge by lia.
  by replace (S (length seen) - length seen)%nat with 1%nat by lia.
Qed.

Lemma runningSum_S f k : runningSum f (S k) = f 0%nat + runningSum (f ∘ S) k.
Proof.
  unfold runningSum. rewrite (list_fmap_compose S f), fmap_S_seq.
  change (seq 0 (S (S k))) with (0%nat :: seq 1 (S k)).
  by rewrite fmap_cons.
Qed.

Lemma runningSum_ext f g k :
  (forall j, f j = g j) -> runningSum f k = runningSum g k.
Proof.
  intros Hfg. unfold runningSum. f_equal. apply list_fmap_ext. intros; apply Hfg.
Qed.

(** The loop of the averages, started after the values [seen]. *)
Lemma rollingAverages_lookup l : forall seen c3 c7 k d,
  l !! k = Some d ->
  let values := seen ++ (Day.confirmed <$> l) in
  rollingAverages (window 3 seen) (window 7 seen) c3 c7 l !! k
  = Some (Day.set_confirmedCumulativeAvg7d
            (c7 + runningSum (fun j => windowAvg 7 values (length seen + j)) k)
            (Day.set_confirmedAvg7d (windowAvg 7 values (length seen + k))
               (Day.set_confirmedCumulativeAvg3d
                  (c3 + runningSum (fun j => windowAvg 3 values (length seen + j)) k)
                  (Day.set_confirmedAvg3d
                     (windowAvg 3 values (length seen + k)) d)))).
Proof.
  induction l as [|x l IH]; intros seen c3 c7 k d Hk values; [done|].
  pose proof (pushWindow_avg 3 seen (Day.confirmed x) (Day.confirmed <$> l)) as H3.
  pose proof (pushWindow_avg 7 seen (Day.confirmed x) (Day.confirmed <$> l)) as H7.
  change (Z.of_nat 3) with 3 in H3. change (Z.of_nat 7) with 7 in H7.
  fold values in H3, H7.
  destruct k as [|k]; simpl in Hk.
  - simplify_eq. simpl rollingAverages. simpl lookup.
    rewrite H3, H7. unfold runningSum. simpl.
    by rewrite !Z.add_0_r.
  - simpl rollingAverages. simpl lookup.
    rewrite H3, H7, !pushWindow_window, !window_snoc.
    rewrite (IH (seen ++ [Day.confirmed x]) _ _ k d Hk). simpl.
    rewrite !runningSum_S.
    assert (Hv : (seen ++ [Day.confirmed x]) ++ (Day.confirmed <$> l) = values).
    { unfold values. by rewrite <- app_assoc. }
    rewrite Hv, length_app. simpl.
    assert (Hi : forall j, (length seen + 1 + j = length seen + S j)%nat) by lia.
    rewrite Hi.
    rewrite (runningSum_ext _ _ k
               (fun j => f_equal (windowAvg 3 values) (Hi j))).
    rewrite (runningSum_ext _ _ k
               (fun j => f_equal (windowAvg 7 values) (Hi j))).
    rewrite !Z.add_assoc. done.
Qed.

Lemma cumulate_confirmed c l :
  Day.confirmed <$> cumulate c l = Day.confirmed <$> l.
Proof.
  revert c. induction l as [|x l IH]; intros c; simpl; [done|]. by rewrite IH.
Qed.

Lemma rollingAverages_confirmed b3 b7 c3 c7 l :
  Day.confirmed <$> rollingAverages b3 b7 c3 c7 l = Day.confirmed <$> l.
Proof.
  revert b3 b7 c3 c7. induction l as [|x l IH]; intros; simpl; [done|].
  by rewrite IH.
Qed.

Lemma forwardFill_confirmed l :
  Day.confirmed <$> forwardFill l = Day.confirmed <$> l.
Proof.
  induction (forwardFill_sameCounts l) as [|a b l1 l2 Hab _ IH]; [done|].
  rewrite !fmap_cons, IH. by destruct Hab as [-> _].
Qed.

(** ** The daily summary *)

Lemma foldl_invariant {A B} (P : A -> Prop) (f : A -> B -> A) l :
  (forall a x, P a -> P (f a x)) -> forall a, P a -> P (foldl f a l).
Proof. intros Hf. induction l as [|x l IH]; intros a Ha; simpl; auto. Qed.

Lemma countPatient_countsNonneg dailySummary patient :
  countsNonneg dailySummary -> countsNonneg (countPatient dailySummary patient).
Proof.
  intros Hm. unfold countPatient.
  destruct (negb (truthy (dateAnnounced patient))); [done|].
  set (d := default "" (dateAnnounced patient)).
  assert (Hm' : countsNonneg
                  match dailySummary !! d with
                  | Some _ => dailySummary
                  | None => <[d:=newDay]> dailySummary
                  end).
  { destruct (dailySummary !! d); [done|].
    intros key o. rewrite lookup_insert. case_decide.
    - intros [= <-]. done.
    - apply Hm. }
  destruct (confirmedPatient patient); [|done].
  intros key o. rewrite lookup_alter. case_decide; [|apply Hm'].
  subst key. intros Ho. apply fmap_Some in Ho as (o' & Ho' & ->).
  simpl. apply Hm' in Ho'. lia.
Qed.

Lemma mergeDailyRow_countsNonneg dailySummary row :
  countsNonneg dailySummary -> countsNonneg (mergeDailyRow dailySummary row).
Proof.
  intros Hm. unfold mergeDailyRow.
  destruct (dailySummary !! DailyRow.date row); [|done].
  intros key o. rewrite lookup_alter. case_decide; [|apply Hm].
  subst key. intros Ho. apply fmap_Some in Ho as (o' & Ho' & ->).
  simpl. by apply Hm in Ho'.
Qed.

Section DailySummaryFacts.

Variables (patients : list Patient) (manualDailyData : list DailyRow.t).

Local Abbreviation dailySummary := (dailySummaryOf patients manualDailyData).
Local Abbreviation pairs := (datedPairs patients manualDailyData).
Local Abbreviation ordered := (orderedDailySummary patients manualDailyData).
Local Abbreviation counts := (confirmedCounts patients manualDailyData).

Lemma dailySummary_countsNonneg : countsNonneg dailySummary.
Proof.
  unfold dailySummaryOf. apply foldl_invariant; [apply mergeDailyRow_countsNonneg|].
  apply foldl_invariant; [apply countPatient_countsNonneg|].
  intros key o. by rewrite lookup_empty.
Qed.

Lemma pairs_sorted :
  StronglySorted (fun x y => String.ltb x.1 y.1 = true) pairs.
Proof.
  eapply StronglySorted_weaken; last first.
  - apply (sorted_NoDup_strict fst String.leb).
    + apply sortBy_sorted; [apply String.leb_total | apply String_leb_trans].
    + unfold datedPairs. rewrite sortBy_Permutation.
      apply NoDup_fst_map_to_list.
  - intros x y [Hle Hne]. by apply String_leb_ne_ltb.
Qed.

Lemma counts_pairs : counts = (fun v => Day.confirmed v.2) <$> pairs.
Proof.
  unfold confirmedCounts, orderedDailySummary.
  rewrite forwardFill_confirmed, rollingAverages_confirmed, cumulate_confirmed.
  unfold orderByDate. rewrite <- list_fmap_compose. done.
Qed.

Lemma counts_nonneg : Forall (fun x => 0 <= x) counts.
Proof.
  rewrite counts_pairs. apply Forall_fmap, Forall_forall.
  intros [key o] Hin. simpl.
  unfold datedPairs in Hin. rewrite sortBy_Permutation in Hin.
  apply elem_of_map_to_list in Hin. by eapply dailySummary_countsNonneg.
Qed.

(** Every entry of the ordered summary, field by field. *)
Lemma orderedDailySummary_lookup k d :
  ordered !! k = Some d ->
  exists key o,
    pairs !! k = Some (key, o)
    /\ Day.date d = Some key
    /\ Day.confirmed d = Day.confirmed o
    /\ Day.confirmedCumulative d = Some (sum (take (S k) counts))
    /\ Day.confirmedAvg3d d = Some (windowAvg 3 counts k)
    /\ Day.confirmedCumulativeAvg3d d = Some (runningSum (windowAvg 3 counts) k)
    /\ Day.confirmedAvg7d d = Some (windowAvg 7 counts k)
    /\ Day.confirmedCumulativeAvg7d d = Some (runningSum (windowAvg 7 counts) k).
Proof.
  intros Hd.
  assert (Hcounts : counts = Day.confirmed <$> orderByDate dailySummary).
  { unfold confirmedCounts, orderedDailySummary.
    by rewrite forwardFill_confirmed, rollingAverages_confirmed,
               cumulate_confirmed. }
  change (foldl mergeDailyRow (foldl countPatient ∅ patients) manualDailyData)
    with dailySummary in Hcounts.
  assert (Hordered : ordered
                     = forwardFill (rollingAverages [] [] 0 0
                                      (cumulate 0 (orderByDate dailySummary))))
    by done.
  rewrite Hordered in Hd.
  set (o1 := orderByDate dailySummary) in *.
  set (o2 := cumulate 0 o1).
  set (o3 := rollingAverages [] [] 0 0 o2).
  assert (Hlen3 : (k < length o3)%nat).
  { apply lookup_lt_Some in Hd. by rewrite forwardFill_length in Hd. }
  assert (Hlen1 : (k < length o1)%nat).
  { unfold o3, o2 in Hlen3.
    by rewrite rollingAverages_length, cumulate_length in Hlen3. }
  destruct (lookup_lt_is_Some_2 o1 k Hlen1) as [d1 Hd1].
  pose proof (cumulate_lookup o1 0 k d1 Hd1) as Hd2. fold o2 in Hd2.
  pose proof (rollingAverages_lookup o2 [] 0 0 k _ Hd2) as Hd3.
  change (window 3 []) with (@nil Z) in Hd3.
  change (window 7 []) with (@nil Z) in Hd3.
  fold o3 in Hd3. simpl in Hd3.
  assert (Hcounts2 : Day.confirmed <$> o2 = counts).
  { unfold o2. by rewrite cumulate_confirmed. }
  rewrite Hcounts2, <- Hcounts in Hd3.
  destruct (Forall2_lookup_l _ _ _ k d (forwardFill_sameCounts o3) Hd)
    as (d3 & Hd3' & Hsame).
  rewrite Hd3 in Hd3'. injection Hd3' as <-.
  destruct Hsame as (Hc & Hdate & Hcc & H3 & Hc3 & H7 & Hc7).
  simpl in *.
  unfold o1, orderByDate in Hd1. rewrite list_lookup_fmap in Hd1.
  change (sortBy fst String.leb (map_to_list dailySummary)) with pairs in Hd1.
  destruct (pairs !! k) as [[key o]|] eqn:Hp; [|done].
  injection Hd1 as <-. simpl in *.
  exists key, o. rewrite Z.add_0_l in Hcc.
  rewrite !Z.add_0_l in *.
  repeat split; done.
Qed.

Lemma counts_prefix_le i j :
  (i <= j)%nat -> sum (take (S i) counts) <= sum (take (S j) counts).
Proof.
  intros Hij.
  rewrite <- (take_drop (S i) (take (S j) counts)).
  rewrite take_take, Nat.min_l, sum_app by lia.
  assert (0 <= sum (drop (S i) (take (S j) counts))); [|lia].
  apply sum_nonneg, Forall_drop, Forall_take, counts_nonneg.
Qed.

End DailySummaryFacts.

Lemma orderedDailySummary_datesAscending patients manualDailyData :
  datesAscending (orderedDailySummary patients manualDailyData).
Proof.
  intros i j di dj Hij Hi Hj.
  apply orderedDailySummary_lookup in Hi as (a & oa & Ha & Hda & _).
  apply orderedDailySummary_lookup in Hj as (b & ob & Hb & Hdb & _).
  exists a, b. split; [done|]. split; [done|].
  exact (StronglySorted_lookup _ _ i j (a, oa) (b, ob)
           (pairs_sorted patients manualDailyData) Hij Ha Hb).
Qed.

Lemma orderedDailySummary_cumulativeIsRunningSum patients manualDailyData :
  cumulativeIsRunningSum (orderedDailySummary patients manualDailyData).
Proof.
  intros k d Hd.
  by apply orderedDailySummary_lookup in Hd as (? & ? & _ & _ & _ & Hcc & _).
Qed.

Lemma orderedDailySummary_cumulativeNonDecreasing patients manualDailyData :
  cumulativeNonDecreasing (orderedDailySummary patients manualDailyData).
Proof.
  intros i j di dj Hij Hi Hj.
  apply orderedDailySummary_lookup in Hi as (? & ? & _ & _ & _ & Hci & _).
  apply orderedDailySummary_lookup in Hj as (? & ? & _ & _ & _ & Hcj & _).
  eexists _, _. split; [exact Hci|]. split; [exact Hcj|].
  by apply counts_prefix_le.
Qed.

Lemma orderedDailySummary_averagesHold patients manualDailyData :
  averagesHold (orderedDailySummary patients manualDailyData).
Proof.
  unfold averagesHold. intros k d Hd.
  by apply orderedDailySummary_lookup
    in Hd as (? & ? & _ & _ & _ & _ & H3 & Hc3 & H7 & Hc7).
Qed.

Lemma generateDailySummary_Ok_inv string_lt_one patients manualDailyData out :
  generateDailySummary string_lt_one patients manualDailyData = Ok out ->
  out = orderedDailySummary patients manualDailyData.
Proof.
  unfold generateDailySummary. by intros [-> _]%verifyDailySummary_Ok_inv.
Qed.

(** C3.  In every series that generateDailySummary returns the dates are
    strictly ascending, confirmedCumulative of an entry is the sum of
    confirmed over the entries up to it, itself included, and
    confirmedCumulative never decreases along the series. *)
Theorem generateDailySummary_confirmedCumulative
    string_lt_one patients manualDailyData out :
  generateDailySummary string_lt_one patients manualDailyData = Ok out ->
  datesAscending out /\ cumulativeIsRunningSum out /\ cumulativeNonDecreasing out.
Proof.
  intros ->%generateDailySummary_Ok_inv.
  split; [apply orderedDailySummary_datesAscending|].
  split; [apply orderedDailySummary_cumulativeIsRunningSum|].
  apply orderedDailySummary_cumulativeNonDecreasing.
Qed.

Lemma generateDailySummary_confirmedCumulative_witness :
  datesAscending (orderedDailySummary tenDays [])
  /\ cumulativeIsRunningSum (orderedDailySummary tenDays [])
  /\ cumulativeNonDecreasing (orderedDailySummary tenDays []).
Proof.
  apply (generateDailySummary_confirmedCumulative (fun _ => false) tenDays []).
  vm_compute. reflexivity.
Defined.

Lemma window_suffix n values :
  window n values `suffix_of` values
  /\ length (window n values) = (n `min` length values)%nat.
Proof.
  unfold window. split; [apply suffix_drop|]. rewrite length_drop. lia.
Qed.

(** C2.  In the ordered summary, hence in every series that
    generateDailySummary returns, confirmedAvg3d and confirmedAvg7d of the
    entry at position k+1 are the floor of the sum of the last min(3, k+1),
    respectively min(7, k+1), confirmed values divided by 3, respectively 7,
    and the two cumulative averages are the running sums of these; the
    confirmed counts 1, 2, 3, 4 give the 3-day averages 0, 1, 2, 3. *)
Theorem generateDailySummary_rolling_averages :
  (forall n values k, (k < length values)%nat ->
     window n (take (S k) values) `suffix_of` take (S k) values
     /\ length (window n (take (S k) values)) = (n `min` S k)%nat
     /\ windowAvg n values k = sum (window n (take (S k) values)) / Z.of_nat n)
  /\ (forall patients manualDailyData,
        averagesHold (orderedDailySummary patients manualDailyData))
  /\ (forall string_lt_one patients manualDailyData out,
        generateDailySummary string_lt_one patients manualDailyData = Ok out ->
        averagesHold out)
  /\ Day.confirmed <$> orderedDailySummary fourDays [] = [1; 2; 3; 4]
  /\ Day.confirmedAvg3d <$> orderedDailySummary fourDays []
     = [Some 0; Some 1; Some 2; Some 3].
Proof.
  split; [|split; [|split; [|split]]].
  - intros n values k Hk.
    destruct (window_suffix n (take (S k) values)) as [Hs Hl].
    split; [done|]. split; [|done].
    rewrite Hl, length_take. lia.
  - apply orderedDailySummary_averagesHold.
  - intros f patients manual out ->%generateDailySummary_Ok_inv.
    apply orderedDailySummary_averagesHold.
  - by vm_compute.
  - by vm_compute.
Qed.

Lemma generateDailySummary_rolling_averages_witness :
  averagesHold (orderedDailySummary tenDays []).
Proof.
  destruct generateDailySummary_rolling_averages as (_ & _ & H & _).
  apply (H (fun _ => false) tenDays []).
  vm_compute. reflexivity.
Defined.

(** ** safeParseInt *)

Ltac cases_on_codes :=
  repeat (match goal with
          | |- context [(?a <=? ?b)] => destruct (Z.leb_spec a b)
          | |- context [(?a <? ?b)] => destruct (Z.ltb_spec a b)
          end; simpl in *);
  try done; try lia.

Lemma digitValue_decimal c :
  digitValue 10 c = if isDecimalDigit c then Some (digitOf c) else None.
Proof.
  unfold digitValue, isDecimalDigit, digitOf, charCode.
  generalize (Z.of_N (N_of_ascii c)) as n. intros n. cases_on_codes.
Qed.

Lemma digitValue_hex c :
  digitValue 16 c = if isHexDigit c then Some (digitOf c) else None.
Proof.
  unfold digitValue, isHexDigit, isDecimalDigit, digitOf, charCode.
  generalize (Z.of_N (N_of_ascii c)) as n. intros n. cases_on_codes.
Qed.

Section DigitsPrefix.
Variables (radix : Z) (isDigit : ascii -> bool).
Hypothesis digitValue_isDigit : forall c,
  digitValue radix c = if isDigit c then Some (digitOf c) else None.

Lemma digitsPrefix_app digits rest :
  allChars isDigit digits = true -> headIs isDigit rest = false ->
  digitsPrefix radix (digits +:+ rest)
  = digitOf <$> list_ascii_of_string digits.
Proof.
  intros Hd Hr. induction digits as [|c digits IH]; simpl in *.
  - destruct rest as [|c rest]; [done|]. simpl in *.
    by rewrite digitValue_isDigit, Hr.
  - apply andb_prop in Hd as [Hc Hd].
    by rewrite digitValue_isDigit, Hc, IH.
Qed.

Lemma digitsValue_numeral digits :
  digitsValue radix (digitOf <$> list_ascii_of_string digits)
  = numeral radix digits.
Proof.
  unfold digitsValue, numeral.
  generalize 0. induction (list_ascii_of_string digits) as [|c l IH];
    intros acc; simpl; [done|]. apply IH.
Qed.

(** The digits of a numeral are read to the end, and to their value. *)
Lemma digitsPrefix_numeral digits rest (sg : Z) :
  digits <> "" ->
  allChars isDigit digits = true -> headIs isDigit rest = false ->
  match digitsPrefix radix (digits +:+ rest) with
  | [] => None
  | ds => Some (sg * digitsValue radix ds)
  end = Some (sg * numeral radix digits).
Proof.
  intros Hne Hd Hr. rewrite (digitsPrefix_app _ _ Hd Hr).
  rewrite <- digitsValue_numeral.
  destruct digits as [|c digits]; [done|]. done.
Qed.
End DigitsPrefix.

Lemma trimStart_blanks ws s :
  allChars isStrWhiteSpaceChar ws = true ->
  headIs isStrWhiteSpaceChar s = false ->
  trimStart (ws +:+ s) = s.
Proof.
  intros Hws Hs. induction ws as [|c ws IH]; simpl in *.
  - destruct s as [|c s]; [done|]. simpl in *. by rewrite Hs.
  - apply andb_prop in Hws as [-> Hws]. by apply IH.
Qed.

Lemma decimalDigit_not_blank c :
  isDecimalDigit c = true -> isStrWhiteSpaceChar c = false.
Proof.
  unfold isDecimalDigit, isStrWhiteSpaceChar, charCode.
  intros [H1 H2]%andb_prop. apply Z.leb_le in H1, H2.
  destruct (N.leb_spec 9 (N_of_ascii c)), (N.leb_spec (N_of_ascii c) 13),
    (N.eqb_spec (N_of_ascii c) 32), (N.eqb_spec (N_of_ascii c) 160);
    simpl; try done; lia.
Qed.

Lemma decimalDigit_not_sign c :
  isDecimalDigit c = true -> Ascii.eqb c "-" = false /\ Ascii.eqb c "+" = false.
Proof.
  intros Hc. split.
  - destruct (Ascii.eqb_spec c "-") as [->|]; done.
  - destruct (Ascii.eqb_spec c "+") as [->|]; done.
Qed.

Lemma parseInt_signed ws sg body :
  allChars isStrWhiteSpaceChar ws = true ->
  (sg = NoSign ->
   headIs isStrWhiteSpaceChar body = false /\ headIs isSignChar body = false) ->
  parseInt (ws +:+ signString sg +:+ body) = parseBody (signValue sg) body.
Proof.
  intros Hws Hbody. unfold parseInt.
  rewrite trimStart_blanks; [|done|by destruct sg; [apply Hbody|..]].
  destruct sg; simpl; [|done..].
  destruct (Hbody eq_refl) as [_ Hs].
  destruct body as [|c body]; [done|]. simpl in Hs. unfold isSignChar in Hs.
  apply orb_false_elim in Hs as [Hplus Hminus].
  change ("" +:+ String c body) with (String c body). cbv beta iota.
  by rewrite Hminus, Hplus.
Qed.

Lemma parseBody_decimal sg digits rest :
  digits <> "" -> allChars isDecimalDigit digits = true ->
  headIs isDecimalDigit rest = false ->
  stripHexPrefix (digits +:+ rest) = None ->
  parseBody sg (digits +:+ rest) = Some (sg * numeral 10 digits).
Proof.
  intros Hne Hd Hr Hx. unfold parseBody. rewrite Hx.
  by apply (digitsPrefix_numeral 10 isDecimalDigit digitValue_decimal).
Qed.

Lemma parseBody_hex sg x digits rest :
  x = "x"%char \/ x = "X"%char ->
  digits <> "" -> allChars isHexDigit digits = true ->
  headIs isHexDigit rest = false ->
  parseBody sg (String "0" (String x (digits +:+ rest)))
  = Some (sg * numeral 16 digits).
Proof.
  intros Hx Hne Hd Hr. unfold parseBody.
  assert (stripHexPrefix (String "0" (String x (digits +:+ rest)))
          = Some (digits +:+ rest)) as ->.
  { by destruct Hx as [-> | ->]. }
  by apply (digitsPrefix_numeral 16 isHexDigit digitValue_hex).
Qed.

Lemma digitsPrefix_none radix (isDigit : ascii -> bool) s :
  (forall c, digitValue radix c = if isDigit c then Some (digitOf c) else None) ->
  headIs isDigit s = false -> digitsPrefix radix s = [].
Proof.
  intros Hdv Hs. destruct s as [|c s]; [done|]. simpl in *.
  by rewrite Hdv, Hs.
Qed.

Lemma parseBody_no_digit sg s :
  headIs isDecimalDigit s = false -> parseBody sg s = None.
Proof.
  intros Hs. unfold parseBody.
  assert (stripHexPrefix s = None) as ->.
  { destruct s as [|c0 [|c1 r]]; [done..|]. simpl in *.
    destruct (Ascii.eqb_spec c0 "0") as [->|]; [done|]. done. }
  by rewrite (digitsPrefix_none 10 isDecimalDigit s digitValue_decimal Hs).
Qed.

Lemma parseBody_hex_no_digit sg x rest :
  x = "x"%char \/ x = "X"%char -> headIs isHexDigit rest = false ->
  parseBody sg (String "0" (String x rest)) = None.
Proof.
  intros Hx Hr. unfold parseBody.
  assert (stripHexPrefix (String "0" (String x rest)) = Some rest) as ->.
  { by destruct Hx as [-> | ->]. }
  by rewrite (digitsPrefix_none 16 isHexDigit rest digitValue_hex Hr).
Qed.

(** C9.  safeParseInt reads its argument as a string: blanks, a sign,
    and then a numeral.
    - After a decimal numeral that is not the 0 of a prefix 0x, the
      result is the signed value of its digits, whatever follows them.
    - After the prefix 0x or 0X and hexadecimal digits, the result is the
      signed value of these digits.
    - Without a digit after the blanks and the sign, and after a prefix
      0x without a hexadecimal digit, parseInt is NaN and the result is 0;
      with a numeral parseInt is never NaN.
    The values are exact up to 2^53.  So "12abc" and the number 12.9 both
    give 12. *)
Theorem safeParseInt_leading_integer :
  (forall ws sg digits rest,
     allChars isStrWhiteSpaceChar ws = true ->
     digits <> "" -> allChars isDecimalDigit digits = true ->
     headIs isDecimalDigit rest = false ->
     stripHexPrefix (digits +:+ rest) = None ->
     numeral 10 digits <= 2 ^ 53 ->
     parseInt (ws +:+ signString sg +:+ digits +:+ rest) <> None
     /\ safeParseInt (JStr (ws +:+ signString sg +:+ digits +:+ rest))
        = signValue sg * numeral 10 digits)
  /\ (forall ws sg x digits rest,
        allChars isStrWhiteSpaceChar ws = true ->
        x = "x"%char \/ x = "X"%char ->
        digits <> "" -> allChars isHexDigit digits = true ->
        headIs isHexDigit rest = false ->
        numeral 16 digits <= 2 ^ 53 ->
        safeParseInt
          (JStr (ws +:+ signString sg +:+ String "0" (String x (digits +:+ rest))))
        = signValue sg * numeral 16 digits)
  /\ (forall ws sg rest,
        allChars isStrWhiteSpaceChar ws = true ->
        headIs isDecimalDigit rest = false ->
        (sg = NoSign ->
         headIs isStrWhiteSpaceChar rest = false
         /\ headIs isSignChar rest = false) ->
        parseInt (ws +:+ signString sg +:+ rest) = None
        /\ safeParseInt (JStr (ws +:+ signString sg +:+ rest)) = 0)
  /\ (forall ws sg x rest,
        allChars isStrWhiteSpaceChar ws = true ->
        x = "x"%char \/ x = "X"%char ->
        headIs isHexDigit rest = false ->
        parseInt (ws +:+ signString sg +:+ String "0" (String x rest)) = None
        /\ safeParseInt
             (JStr (ws +:+ signString sg +:+ String "0" (String x rest))) = 0)
  /\ (forall v, safeParseInt v = safeParseInt (JStr (ToString v)))
  /\ safeParseInt (JStr "12abc") = 12
  /\ safeParseInt (JFraction false 12 "9") = 12
  /\ safeParseInt (JStr "abc") = 0.
Proof.
  split; [|split; [|split; [|split; [|split; [|by vm_compute]]]]].
  - intros ws sg digits rest Hws Hne Hd Hr Hx _.
    assert (Hp : parseInt (ws +:+ signString sg +:+ digits +:+ rest)
                 = Some (signValue sg * numeral 10 digits)).
    { rewrite parseInt_signed; [by apply parseBody_decimal | done |].
      intros _. destruct digits as [|c digits]; [done|].
      simpl in Hd. apply andb_prop in Hd as [Hc _].
      split; simpl.
      - by apply decimalDigit_not_blank.
      - unfold isSignChar. by destruct (decimalDigit_not_sign c Hc) as [-> ->]. }
    unfold safeParseInt. simpl. by rewrite Hp.
  - intros ws sg x digits rest Hws Hx Hne Hd Hr _.
    unfold safeParseInt. simpl.
    rewrite parseInt_signed; [|done|by intros _].
    by rewrite parseBody_hex.
  - intros ws sg rest Hws Hr Hsg.
    assert (Hp : parseInt (ws +:+ signString sg +:+ rest) = None).
    { rewrite parseInt_signed by done. by apply parseBody_no_digit. }
    unfold safeParseInt. simpl. by rewrite Hp.
  - intros ws sg x rest Hws Hx Hr.
    assert (Hp : parseInt (ws +:+ signString sg +:+ String "0" (String x rest))
                 = None).
    { rewrite parseInt_signed; [|done|by intros _].
      by apply parseBody_hex_no_digit. }
    unfold safeParseInt. simpl. by rewrite Hp.
  - by intros v.
Qed.

Lemma safeParseInt_leading_integer_witness :
  safeParseInt (JStr (" " +:+ signString Minus +:+ "12" +:+ ".9")) = -1 * 12.
Proof.
  destruct safeParseInt_leading_integer as (H & _).
  apply (H " " Minus "12" ".9").
  - reflexivity.
  - discriminate.
  - reflexivity.
  - reflexivity.
  - reflexivity.
  - vm_compute. discriminate.
Defined.

(** ** The object prefectureSummary *)

Lemma dict_get_alter {V} (f : V -> V) k (d : dict V) k' :
  dict_get (dict_alter f k d) k'
  = if String.eqb k k' then f <$> dict_get d k' else dict_get d k'.
Proof.
  induction d as [|[k0 v] d IH]; simpl.
  - by destruct (String.eqb k k').
  - destruct (String.eqb_spec k0 k) as [->|Hk0]; simpl.
    + by destruct (String.eqb_spec k k').
    + rewrite IH. destruct (String.eqb_spec k0 k') as [->|]; [|done].
      by destruct (String.eqb_spec k k').
Qed.

Lemma dict_get_snoc {V} (d : dict V) k v k' :
  dict_get (d ++ [(k, v)]) k'
  = match dict_get d k' with
    | Some x => Some x
    | None => if String.eqb k k' then Some v else None
    end.
Proof.
  induction d as [|[k0 v0] d IH]; simpl; [done|].
  by destruct (String.eqb k0 k').
Qed.

Lemma dict_alter_keys {V} (f : V -> V) k (d : dict V) :
  (dict_alter f k d).*1 = d.*1.
Proof.
  induction d as [|[k0 v] d IH]; [done|]. cbn [dict_alter].
  destruct (String.eqb k0 k); [done|]. by rewrite !fmap_cons, IH.
Qed.

Lemma dict_get_None {V} (d : dict V) k : dict_get d k = None <-> k ∉ d.*1.
Proof.
  induction d as [|[k0 v] d IH]; simpl.
  - split; [intros _; apply not_elem_of_nil | done].
  - rewrite not_elem_of_cons.
    destruct (String.eqb_spec k0 k) as [->|Hne].
    + split; [done | by intros [? _]].
    + rewrite IH. split; [by intros ?; split | by intros [_ ?]].
Qed.

Lemma dict_get_elem_of {V} (d : dict V) k v :
  NoDup d.*1 -> (k, v) ∈ d -> dict_get d k = Some v.
Proof.
  induction d as [|[k0 v0] d IH]; simpl; intros Hnd Hin.
  - by apply elem_of_nil in Hin.
  - apply NoDup_cons in Hnd as [Hk0 Hnd].
    apply elem_of_cons in Hin as [[= -> ->] | Hin].
    + by rewrite String.eqb_refl.
    + destruct (String.eqb_spec k0 k) as [->|]; [|by apply IH].
      exfalso. apply Hk0. apply list_elem_of_fmap. by exists (k, v).
Qed.

Lemma countPrefecturePatient_get d p k :
  dict_get (countPrefecturePatient d p) k = regionStep k (dict_get d k) p.
Proof.
  unfold countPrefecturePatient, regionStep.
  destruct (dict_get d (detectedPrefecture p)) as [o|] eqn:E;
    rewrite dict_get_alter.
  - destruct (String.eqb_spec (detectedPrefecture p) k) as [<-|]; [|done].
    by rewrite E.
  - rewrite dict_get_snoc.
    destruct (String.eqb_spec (detectedPrefecture p) k) as [<-|]; [by rewrite E|].
    by destruct (dict_get d k).
Qed.

Lemma countPrefecturePatient_NoDup d p :
  NoDup d.*1 -> NoDup (countPrefecturePatient d p).*1.
Proof.
  intros Hnd. unfold countPrefecturePatient. rewrite dict_alter_keys.
  destruct (dict_get d (detectedPrefecture p)) eqn:E; [done|].
  rewrite fmap_app. apply NoDup_app. split; [done|].
  split; [|apply NoDup_singleton].
  intros k Hk ->%list_elem_of_singleton. simpl in *.
  by apply dict_get_None in E.
Qed.

Lemma regionStep_fold k ps : forall o,
  foldl (regionStep k) o ps
  = match regionOf k ps with
    | [] => o
    | l => Some (addPatients (default newPrefecture o) l)
    end.
Proof.
  unfold regionOf, addPatients.
  induction ps as [|p ps IH]; intros o; simpl; [done|].
  rewrite IH. unfold regionStep.
  destruct (String.eqb (detectedPrefecture p) k); simpl; [|done].
  by destruct (List.filter _ ps).
Qed.

Section PrefectureSummaryFacts.

Variable patients : list Patient.

(** The object after the loop over the patients. *)
Lemma counted_get k :
  dict_get (foldl countPrefecturePatient [] patients) k
  = match regionOf k patients with
    | [] => None
    | l => Some (addPatients newPrefecture l)
    end.
Proof.
  transitivity (foldl (regionStep k)
                      (dict_get (@nil (string * Prefecture.t)) k) patients);
    [|by rewrite regionStep_fold].
  generalize (@nil (string * Prefecture.t)).
  induction patients as [|p ps IH]; intros d; simpl; [done|].
  by rewrite IH, countPrefecturePatient_get.
Qed.

Lemma counted_NoDup : NoDup (foldl countPrefecturePatient [] patients).*1.
Proof.
  apply (foldl_invariant (fun d : dict Prefecture.t => NoDup d.*1)).
  - intros d p. apply countPrefecturePatient_NoDup.
  - apply NoDup_nil_2.
Qed.

End PrefectureSummaryFacts.

Lemma addPatient_fields p o :
  Prefecture.confirmed (addPatient p o)
  = Prefecture.confirmed o + (if confirmedPatient p then 1 else 0)
  /\ Prefecture.deaths (addPatient p o)
     = Prefecture.deaths o
       + (if String.eqb (patientStatus p) "Deceased" then 1 else 0)
  /\ Prefecture.patients (addPatient p o)
     = Some (default [] (Prefecture.patients o) ++ [p])
  /\ Prefecture.dailyConfirmedCount (addPatient p o)
     = Prefecture.dailyConfirmedCount o
  /\ Prefecture.dailyConfirmedStartDate (addPatient p o)
     = Prefecture.dailyConfirmedStartDate o
  /\ Prefecture.newlyConfirmed (addPatient p o) = Prefecture.newlyConfirmed o
  /\ Prefecture.name (addPatient p o) = Prefecture.name o.
Proof.
  unfold addPatient.
  destruct (confirmedPatient p), (truthy (detectedCityTown p)),
    (cruisePassengerDisembarked p =? 1), (cruiseQuarantineOfficer p =? 1),
    (String.eqb (patientStatus p) "Deceased"); simpl;
    rewrite ?Z.add_0_r; repeat split.
Qed.

Lemma addPatients_fields ps : forall o l0,
  Prefecture.patients o = Some l0 ->
  Prefecture.confirmed (addPatients o ps) = Prefecture.confirmed o + confirmedIn ps
  /\ Prefecture.deaths (addPatients o ps) = Prefecture.deaths o + deceasedIn ps
  /\ Prefecture.patients (addPatients o ps) = Some (l0 ++ ps)
  /\ Prefecture.dailyConfirmedCount (addPatients o ps)
     = Prefecture.dailyConfirmedCount o
  /\ Prefecture.dailyConfirmedStartDate (addPatients o ps)
     = Prefecture.dailyConfirmedStartDate o
  /\ Prefecture.newlyConfirmed (addPatients o ps) = Prefecture.newlyConfirmed o
  /\ Prefecture.name (addPatients o ps) = Prefecture.name o.
Proof.
  unfold addPatients.
  induction ps as [|p ps IH]; intros o l0 Hl0; simpl.
  - unfold confirmedIn, deceasedIn. simpl.
    rewrite !Z.add_0_r, app_nil_r. done.
  - destruct (addPatient_fields p o) as (Hc & Hd & Hp & H1 & H2 & H3 & H4).
    rewrite Hl0 in Hp. change (default [] (Some l0)) with l0 in Hp.
    destruct (IH _ _ Hp) as (Hc' & Hd' & Hp' & H1' & H2' & H3' & H4').
    rewrite Hc', Hd', Hp', H1', H2', H3', H4', Hc, Hd, H1, H2, H3, H4.
    rewrite <- app_assoc. unfold confirmedIn, deceasedIn. simpl.
    clear. repeat split.
    + destruct (confirmedPatient p); simpl length; lia.
    + destruct (String.eqb (patientStatus p) "Deceased"); simpl length; lia.
Qed.

(** ** generateDailyStatsForPrefecture *)

Section DailyStatsFacts.

Variable format : Z -> string.
Variable patients : list Patient.
Variable lastDay : Z.

Lemma daysThrough_next day :
  day <= lastDay -> daysThrough lastDay day = S (daysThrough lastDay (day + oneDay)).
Proof.
  intros Hle. unfold daysThrough.
  apply Z.leb_le in Hle as Hleb. rewrite Hleb.
  replace (lastDay - (day + oneDay)) with ((lastDay - day) + (-1) * oneDay) by lia.
  rewrite Z.div_add by done.
  destruct (Z.leb_spec (day + oneDay) lastDay) as [Hnext | Hnext].
  - assert (1 <= (lastDay - day) / oneDay).
    { apply Z.div_le_lower_bound; [done|]. unfold oneDay in *. lia. }
    lia.
  - assert ((lastDay - day) / oneDay = 0) as ->; [|done].
    apply Z.div_small. unfold oneDay in *. lia.
Qed.

(** The loop leaves through its test, not for lack of fuel, as soon as
    the fuel reaches the number of days left; it appends the count of
    each of these days. *)
Lemma dailyStatsLoop_spec fuel : forall day daily,
  (daysThrough lastDay day <= fuel)%nat ->
  dailyStatsLoop format fuel patients lastDay day daily
  = daily ++ ((fun n => reportsOn (format (day + Z.of_nat n * oneDay)) patients)
                <$> seq 0 (daysThrough lastDay day)).
Proof.
  induction fuel as [|fuel IH]; intros day daily Hfuel.
  - assert (daysThrough lastDay day = 0%nat) as -> by lia. simpl. by rewrite app_nil_r.
  - simpl. destruct (Z.leb_spec day lastDay) as [Hle | Hgt].
    + rewrite (daysThrough_next day Hle) in Hfuel |- *.
      rewrite IH by lia. rewrite <- app_assoc. f_equal.
      cbn [seq]. rewrite fmap_cons. cbn [app]. f_equal.
      * unfold reportsOn. by rewrite Z.mul_0_l, Z.add_0_r.
      * rewrite <- (fmap_S_seq 0), <- list_fmap_compose.
        apply list_fmap_ext. intros i n _. simpl. do 2 f_equal. lia.
    + unfold daysThrough. apply Z.leb_gt in Hgt. rewrite Hgt. simpl.
      by rewrite app_nil_r.
Qed.

End DailyStatsFacts.

Lemma generateDailyStatsForPrefecture_spec format patients firstDay lastDay :
  generateDailyStatsForPrefecture format patients firstDay lastDay
  = (fun n => reportsOn (format (firstDay + Z.of_nat n * oneDay)) patients)
      <$> seq 0 (daysThrough lastDay firstDay).
Proof.
  unfold generateDailyStatsForPrefecture.
  rewrite dailyStatsLoop_spec; [done|].
  unfold daysThrough. destruct (firstDay <=? lastDay); lia.
Qed.

(** ** generatePrefectureSummary *)

Lemma sameButManual_refl o : sameButManual o o.
Proof. by repeat split. Qed.

Lemma sameButManual_trans a b c :
  sameButManual a b -> sameButManual b c -> sameButManual a c.
Proof.
  intros (H1 & H2 & H3 & H4 & H5 & H6) (G1 & G2 & G3 & G4 & G5 & G6).
  repeat split; congruence.
Qed.

Lemma dict_alter_lookup {V} (f : V -> V) k (d : dict V) : forall i x,
  dict_alter f k d !! i = Some x ->
  exists y, d !! i = Some y /\ x.1 = y.1 /\ (x.2 = y.2 \/ x.2 = f y.2).
Proof.
  induction d as [|[k0 v] d IH]; intros i x Hx; [done|].
  cbn [dict_alter] in Hx. destruct (String.eqb k0 k).
  - destruct i as [|i]; simpl in *.
    + simplify_eq. exists (k0, v). simpl. auto.
    + exists x. auto.
  - destruct i as [|i]; simpl in *.
    + simplify_eq. exists (k0, v). simpl. auto.
    + by apply IH.
Qed.

Lemma mergePrefectureRow_lookup d row i x :
  mergePrefectureRow d row !! i = Some x ->
  exists y, d !! i = Some y /\ x.1 = y.1 /\ sameButManual x.2 y.2.
Proof.
  unfold mergePrefectureRow.
  destruct (dict_get d (PrefectureRow.prefecture row)).
  - intros (y & Hy & Hk & [Hv | Hv])%dict_alter_lookup; exists y;
      (split; [done|]); (split; [done|]); rewrite Hv.
    + apply sameButManual_refl.
    + by repeat split.
  - intros Hx. exists x. split; [done|]. split; [done|].
    apply sameButManual_refl.
Qed.

Lemma mergePrefectureRows_lookup rows : forall d i x,
  foldl mergePrefectureRow d rows !! i = Some x ->
  exists y, d !! i = Some y /\ x.1 = y.1 /\ sameButManual x.2 y.2.
Proof.
  induction rows as [|row rows IH]; intros d i x Hx; simpl in Hx.
  - exists x. split; [done|]. split; [done|]. apply sameButManual_refl.
  - apply IH in Hx as (y & Hy & Hk & Hs).
    apply mergePrefectureRow_lookup in Hy as (z & Hz & Hk' & Hs').
    exists z. split; [done|]. split; [congruence|].
    by eapply sameButManual_trans.
Qed.

Lemma regionOf_nonempty k patients :
  regionOf k patients <> [] -> k ∈ detectedPrefecture <$> patients.
Proof.
  unfold regionOf. intros Hne.
  destruct (List.filter _ patients) as [|p l] eqn:E; [done|].
  assert (Hin : In p (List.filter
                        (fun p => String.eqb (detectedPrefecture p) k) patients))
    by (rewrite E; by left).
  apply List.filter_In in Hin as [Hin Hk]. apply String.eqb_eq in Hk as <-.
  apply list_elem_of_fmap_2. by apply list_elem_of_In.
Qed.

Section GeneratePrefectureSummaryFacts.

Variable moment : string -> Z.
Variable format : Z -> string.
Variable clock : nat -> Z.
Variable patients : list Patient.
Variable manualPrefectureData : list PrefectureRow.t.

(** Every entry of the result: the prefecture it stands for, its count,
    and the daily series that was computed for it at one read of the
    clock. *)
Lemma generatePrefectureSummary_entry e :
  e ∈ generatePrefectureSummary moment format clock patients manualPrefectureData ->
  exists prefectureName i,
    Prefecture.name e = Some prefectureName
    /\ regionOf prefectureName patients <> []
    /\ Prefecture.confirmed e = confirmedIn (regionOf prefectureName patients)
    /\ Prefecture.patients e = None
    /\ let dailyConfirmed :=
         generateDailyStatsForPrefecture format
           (regionOf prefectureName patients) (moment "2020-01-08") (clock i) in
       if (0 <? length dailyConfirmed)%nat then
         Prefecture.dailyConfirmedCount e = Some dailyConfirmed
         /\ Prefecture.dailyConfirmedStartDate e
            = Some (format (moment "2020-01-08"))
         /\ Prefecture.newlyConfirmed e = last dailyConfirmed
       else
         Prefecture.dailyConfirmedCount e = None
         /\ Prefecture.dailyConfirmedStartDate e = None
         /\ Prefecture.newlyConfirmed e = None.
Proof.
  unfold generatePrefectureSummary.
  set (D := foldl countPrefecturePatient [] patients).
  set (D1 := imap (attachDailyStats moment format clock) D).
  set (D2 := foldl mergePrefectureRow D1 manualPrefectureData).
  intros He.
  apply list_elem_of_fmap in He as ([k o3] & -> & Hin).
  rewrite elem_of_reverse, sortBy_Permutation in Hin.
  apply list_elem_of_fmap in Hin as ([k2 o2] & [= -> ->] & Hin).
  apply list_elem_of_lookup in Hin as [i Hi].
  apply mergePrefectureRows_lookup in Hi as ([k1 o1] & Hi1 & Hk & Hs).
  simpl in Hk, Hs. subst k1.
  unfold D1 in Hi1. rewrite list_lookup_imap in Hi1.
  destruct (D !! i) as [[k0 o]|] eqn:Hi0; [|done].
  simpl in Hi1.
  assert (Hget : dict_get D k0 = Some o).
  { apply dict_get_elem_of; [apply counted_NoDup|].
    by eapply list_elem_of_lookup_2. }
  unfold D in Hget. rewrite counted_get in Hget.
  destruct (regionOf k0 patients) as [|p ps] eqn:Hregion; [done|].
  injection Hget as <-.
  destruct (addPatients_fields (p :: ps) newPrefecture [] eq_refl)
    as (Hc & _ & Hp & Hd1 & Hd2 & Hd3 & Hn).
  simpl in Hp.
  destruct Hs as (Gc & Gp & Gd1 & Gd2 & Gd3 & Gn).
  exists k2, i. simpl.
  unfold attachDailyStats in Hi1. simpl in Hi1. rewrite Hp in Hi1.
  simpl in Hi1.
  destruct (0 <? length (generateDailyStatsForPrefecture format (p :: ps)
                           (moment "2020-01-08") (clock i)))%nat eqn:Hlen;
    injection Hi1 as <- <-; simpl in *.
  - rewrite Hregion, Hlen, Gc, Gd1, Gd2, Gd3, Hc, Z.add_0_l. by repeat split.
  - rewrite Hregion, Hlen, Gc, Gd1, Gd2, Gd3, Hc, Hd1, Hd2, Hd3, Z.add_0_l.
    by repeat split.
Qed.

Lemma attachDailyStats_keys (d : dict Prefecture.t) :
  (imap (attachDailyStats moment format clock) d).*1 = d.*1.
Proof.
  apply list_eq. intros i.
  rewrite !list_lookup_fmap, list_lookup_imap.
  destruct (d !! i) as [[k o]|]; [|done]. simpl.
  unfold attachDailyStats. by destruct (0 <? _)%nat.
Qed.

Lemma mergePrefectureRows_keys rows : forall d : dict Prefecture.t,
  (foldl mergePrefectureRow d rows).*1 = d.*1.
Proof.
  induction rows as [|row rows IH]; intros d; simpl; [done|].
  rewrite IH. unfold mergePrefectureRow.
  destruct (dict_get d (PrefectureRow.prefecture row)); [|done].
  apply dict_alter_keys.
Qed.

Lemma counted_keys k :
  k ∈ (foldl countPrefecturePatient [] patients).*1
  <-> k ∈ detectedPrefecture <$> patients.
Proof.
  split.
  - intros Hk. apply regionOf_nonempty. intros Hnil.
    pose proof (counted_get patients k) as Hget. rewrite Hnil in Hget.
    by apply dict_get_None in Hget.
  - intros (p & -> & Hp)%list_elem_of_fmap.
    destruct (decide (detectedPrefecture p
                        ∈ (foldl countPrefecturePatient [] patients).*1))
      as [|Hnot]; [done|].
    apply dict_get_None in Hnot. rewrite counted_get in Hnot.
    assert (Hin : In p (regionOf (detectedPrefecture p) patients)).
    { apply List.filter_In. split; [by apply list_elem_of_In|].
      apply String.eqb_refl. }
    by destruct (regionOf (detectedPrefecture p) patients).
Qed.

(** The names of the result are the keys of the object, each once. *)
Lemma generatePrefectureSummary_names :
  Prefecture.name
    <$> generatePrefectureSummary moment format clock patients manualPrefectureData
  ≡ₚ Some <$> (foldl countPrefecturePatient [] patients).*1.
Proof.
  unfold generatePrefectureSummary.
  rewrite <- attachDailyStats_keys.
  rewrite <- (mergePrefectureRows_keys manualPrefectureData).
  set (D2 := foldl mergePrefectureRow _ manualPrefectureData).
  rewrite <- !list_fmap_compose.
  rewrite reverse_Permutation, sortBy_Permutation.
  rewrite <- list_fmap_compose. done.
Qed.

(** The result is in descending order of confirmed. *)
Lemma generatePrefectureSummary_descending i j a b :
  (i < j)%nat ->
  generatePrefectureSummary moment format clock patients manualPrefectureData
    !! i = Some a ->
  generatePrefectureSummary moment format clock patients manualPrefectureData
    !! j = Some b ->
  Prefecture.confirmed b <= Prefecture.confirmed a.
Proof.
  unfold generatePrefectureSummary.
  set (sorted := sortBy _ _ _).
  assert (Hs : StronglySorted
                 (keyLe (fun a => Prefecture.confirmed a.2) Z.leb) sorted).
  { apply sortBy_sorted.
    - intros x y. destruct (Z.leb_spec x y); [by left|right]. apply Z.leb_le. lia.
    - intros x y z Hxy%Z.leb_le Hyz%Z.leb_le. apply Z.leb_le. lia. }
  intros Hij Ha Hb.
  rewrite list_lookup_fmap in Ha, Hb.
  destruct (reverse sorted !! i) as [va|] eqn:Hva; [|done].
  destruct (reverse sorted !! j) as [vb|] eqn:Hvb; [|done].
  simpl in Ha, Hb. simplify_eq. simpl.
  apply reverse_lookup_Some in Hva as [Hva Hi], Hvb as [Hvb Hj].
  apply Z.leb_le.
  apply (StronglySorted_lookup _ _ _ _ _ _ Hs) with (3 := Hva) (2 := Hvb).
  lia.
Qed.

End GeneratePrefectureSummaryFacts.

(** C7.  The result of generatePrefectureSummary is in descending order of
    confirmed; the name of each entry is the key of its prefecture, a
    detectedPrefecture of the patients, and its confirmed is the number of
    confirmed records of that prefecture.  Prefectures that come with 5, 20
    and 1 confirmed records leave in the order 20, 5, 1. *)
Theorem generatePrefectureSummary_ordering
    moment format clock patients manualPrefectureData :
  let summary :=
    generatePrefectureSummary moment format clock patients manualPrefectureData in
  (forall i j a b, (i < j)%nat -> summary !! i = Some a -> summary !! j = Some b ->
     Prefecture.confirmed b <= Prefecture.confirmed a)
  /\ (forall e, e ∈ summary ->
        exists prefectureName,
          Prefecture.name e = Some prefectureName
          /\ prefectureName ∈ detectedPrefecture <$> patients
          /\ Prefecture.confirmed e
             = confirmedIn (regionOf prefectureName patients))
  /\ NoDup (Prefecture.name <$> summary)
  /\ (forall prefectureName,
        Some prefectureName ∈ Prefecture.name <$> summary
        <-> prefectureName ∈ detectedPrefecture <$> patients)
  /\ namesAndCounts
       (foldl countPrefecturePatient [] threeRegions).*2
     = [(None, 5); (None, 20); (None, 1)]
  /\ namesAndCounts
       (generatePrefectureSummary (Calendar.moment 540) (Calendar.format 540)
          tenthOfMarch threeRegions [])
     = [(Some "Tokyo", 20); (Some "Aichi", 5); (Some "Osaka", 1)].
Proof.
  intros summary. split; [|split; [|split; [|split; [|split]]]].
  - intros i j a b. apply generatePrefectureSummary_descending.
  - intros e He.
    apply generatePrefectureSummary_entry in He
      as (k & i & Hname & Hne & Hc & _).
    exists k. split; [done|]. split; [|done]. by apply regionOf_nonempty.
  - unfold summary. rewrite generatePrefectureSummary_names.
    apply (NoDup_fmap_2 _), counted_NoDup.
  - intros k. unfold summary. rewrite generatePrefectureSummary_names.
    rewrite <- counted_keys. split.
    + by intros (k' & [= ->] & Hk)%list_elem_of_fmap.
    + apply list_elem_of_fmap_2.
  - by vm_compute.
  - by vm_compute.
Qed.

Lemma generatePrefectureSummary_ordering_witness :
  exists a b,
    generatePrefectureSummary (Calendar.moment 540) (Calendar.format 540)
      tenthOfMarch threeRegions [] !! 0%nat = Some a
    /\ generatePrefectureSummary (Calendar.moment 540) (Calendar.format 540)
         tenthOfMarch threeRegions [] !! 2%nat = Some b
    /\ Prefecture.confirmed b <= Prefecture.confirmed a.
Proof.
  destruct (generatePrefectureSummary_ordering (Calendar.moment 540)
              (Calendar.format 540) tenthOfMarch threeRegions []) as [H _].
  eexists _, _. split; [by vm_compute|]. split; [by vm_compute|].
  eapply (H 0%nat 2%nat); [lia | by vm_compute | by vm_compute].
Defined.



(** ** Records without a date of announcement *)

Lemma countPatient_undated dailySummary p :
  truthy (dateAnnounced p) = false -> countPatient dailySummary p = dailySummary.
Proof. intros Hp. unfold countPatient. by rewrite Hp. Qed.

Lemma orderedDailySummary_undated p before after manualDailyData :
  truthy (dateAnnounced p) = false ->
  orderedDailySummary (before ++ p :: after) manualDailyData
  = orderedDailySummary (before ++ after) manualDailyData.
Proof.
  intros Hp. unfold orderedDailySummary.
  rewrite !foldl_app. cbn [foldl]. by rewrite (countPatient_undated _ p Hp).
Qed.

(** C10.  A record without a date of announcement changes nothing in the
    daily summary, wherever it stands among the patients.  In
    generatePrefectureSummary a confirmed record adds 1 to the confirmed of
    its prefecture, and 1 to its deaths if the status is Deceased, whether
    it has a date or not.  So for the single record [undatedPatient] the
    counts of dailyConfirmedCount add up to 0, below the confirmed 1 of the
    prefecture. *)
Theorem undated_record_counted_by_prefecture_only :
  (forall string_lt_one p before after manualDailyData,
     truthy (dateAnnounced p) = false ->
     generateDailySummary string_lt_one (before ++ p :: after) manualDailyData
     = generateDailySummary string_lt_one (before ++ after) manualDailyData)
  /\ (forall prefectureSummary p,
        confirmedPatient p = true ->
        let previous :=
          default newPrefecture
                  (dict_get prefectureSummary (detectedPrefecture p)) in
        exists o,
          dict_get (countPrefecturePatient prefectureSummary p)
                   (detectedPrefecture p) = Some o
          /\ Prefecture.confirmed o = Prefecture.confirmed previous + 1
          /\ Prefecture.deaths o
             = Prefecture.deaths previous
               + (if String.eqb (patientStatus p) "Deceased" then 1 else 0))
  /\ (exists e series,
        dateAnnounced undatedPatient = None
        /\ generatePrefectureSummary (Calendar.moment 540) (Calendar.format 540)
             tenthOfMarch [undatedPatient] [] = [e]
        /\ Prefecture.dailyConfirmedCount e = Some series
        /\ length series = 63%nat
        /\ Prefecture.confirmed e = 1
        /\ Prefecture.deaths e = 1
        /\ sum series < Prefecture.confirmed e).
Proof.
  split; [|split].
  - intros f p before after manual Hp. unfold generateDailySummary.
    by rewrite orderedDailySummary_undated.
  - intros d p Hp previous.
    exists (addPatient p previous). split.
    + rewrite countPrefecturePatient_get. unfold regionStep.
      by rewrite String.eqb_refl.
    + destruct (addPatient_fields p previous) as (Hc & Hd & _).
      by rewrite Hc, Hd, Hp.
  - eexists _, _. split; [reflexivity|]. split; [by vm_compute|].
    split; [reflexivity|]. by vm_compute.
Qed.

Lemma undated_record_counted_by_prefecture_only_witness :
  generateDailySummary (fun _ => false) (tenDays ++ undatedPatient :: []) []
  = generateDailySummary (fun _ => false) (tenDays ++ []) []
  /\ exists o,
       dict_get (countPrefecturePatient [] undatedPatient) "Tokyo" = Some o
       /\ Prefecture.confirmed o = 0 + 1.
Proof.
  destruct undated_record_counted_by_prefecture_only as (H1 & H2 & _).
  split.
  - apply H1. reflexivity.
  - destruct (H2 [] undatedPatient eq_refl) as (o & Ho & Hc & _).
    exists o. split; [exact Ho | exact Hc].
Defined.

(** * Further properties *)

(** ** The object dailySummary, day by day *)

Lemma bumpDay_fields p o :
  bumpDay p o
  = Day.set_confirmed (Day.confirmed o + (if confirmedPatient p then 1 else 0)) o.
Proof.
  unfold bumpDay. destruct (confirmedPatient p); [done|].
  destruct o. unfold Day.set_confirmed. simpl. by rewrite Z.add_0_r.
Qed.

Lemma countPatient_lookup dailySummary p day :
  countPatient dailySummary p !! day = dayStep day (dailySummary !! day) p.
Proof.
  unfold countPatient, dayStep, dateIs, bumpDay.
  destruct (dateAnnounced p) as [[|c s]|]; [done| |done].
  change (truthy (Some (String c s))) with true. cbn [negb andb default].
  set (d := String c s). change (id d) with d.
  destruct (String.eqb_spec d day) as [<-|Hne].
  - destruct (dailySummary !! d) as [o|] eqn:E;
      destruct (confirmedPatient p);
      rewrite ?lookup_alter_eq, ?lookup_insert_eq, ?E; done.
  - destruct (dailySummary !! d) as [o|] eqn:E;
      destruct (confirmedPatient p);
      rewrite ?lookup_alter_ne, ?lookup_insert_ne by done; done.
Qed.

Lemma bumpDays_fields l : forall o,
  foldl (fun o p => bumpDay p o) o l
  = Day.set_confirmed (Day.confirmed o + confirmedIn l) o.
Proof.
  unfold confirmedIn.
  induction l as [|p l IH]; intros o; simpl.
  - destruct o. unfold Day.set_confirmed. simpl. by rewrite Z.add_0_r.
  - rewrite IH, bumpDay_fields. destruct o. unfold Day.set_confirmed. simpl.
    f_equal. destruct (confirmedPatient p); simpl length; lia.
Qed.

Lemma dayStep_fold day ps : forall o,
  foldl (dayStep day) o ps
  = match patientsOn day ps with
    | [] => o
    | l => Some (foldl (fun o p => bumpDay p o) (default newDay o) l)
    end.
Proof.
  unfold patientsOn.
  induction ps as [|p ps IH]; intros o; simpl; [done|].
  rewrite IH. unfold dayStep.
  destruct (truthy (dateAnnounced p) && dateIs day p); simpl; [|done].
  by destruct (List.filter _ ps).
Qed.

(** The entry of a day after the loop over the patients. *)
Lemma counted_lookup patients day :
  foldl countPatient ∅ patients !! day
  = match patientsOn day patients with
    | [] => None
    | l => Some (Day.set_confirmed (confirmedIn l) newDay)
    end.
Proof.
  transitivity (foldl (dayStep day) ((∅ : gmap string Day.t) !! day) patients).
  - generalize (∅ : gmap string Day.t).
    induction patients as [|p ps IH]; intros m; simpl; [done|].
    by rewrite IH, countPatient_lookup.
  - rewrite dayStep_fold, lookup_empty.
    destruct (patientsOn day patients) as [|p l]; [done|].
    simpl default. by rewrite bumpDays_fields.
Qed.

Lemma mergeDailyRow_lookup dailySummary row day :
  mergeDailyRow dailySummary row !! day
  = if String.eqb (DailyRow.date row) day
    then applyDailyRow row <$> dailySummary !! day
    else dailySummary !! day.
Proof.
  unfold mergeDailyRow.
  destruct (String.eqb_spec (DailyRow.date row) day) as [<-|Hne].
  - destruct (dailySummary !! DailyRow.date row) eqn:E.
    + by rewrite lookup_alter_eq, E.
    + by rewrite E.
  - destruct (dailySummary !! DailyRow.date row); [|done].
    by rewrite lookup_alter_ne.
Qed.

Lemma applyDailyRow_twice row row' o :
  applyDailyRow row (applyDailyRow row' o) = applyDailyRow row o.
Proof. by destruct o. Qed.

Lemma applyDailyRows_last rows : forall o,
  foldl (fun o row => applyDailyRow row o) o rows
  = match last rows with
    | Some row => applyDailyRow row o
    | None => o
    end.
Proof.
  induction rows as [|row rows IH] using rev_ind; intros o; [done|].
  rewrite foldl_snoc, last_snoc, IH.
  destruct (last rows); [apply applyDailyRow_twice | done].
Qed.

Lemma merged_lookup rows day : forall dailySummary,
  foldl mergeDailyRow dailySummary rows !! day
  = (fun o => foldl (fun o row => applyDailyRow row o) o (rowsOn day rows))
      <$> dailySummary !! day.
Proof.
  unfold rowsOn.
  induction rows as [|row rows IH]; intros m; simpl.
  - by destruct (m !! day).
  - rewrite IH, mergeDailyRow_lookup.
    destruct (String.eqb (DailyRow.date row) day); [|done].
    by destruct (m !! day).
Qed.

(** The entry of a day in the object that generateDailySummary orders. *)
Lemma dailySummaryOf_lookup patients manualDailyData day :
  dailySummaryOf patients manualDailyData !! day
  = match patientsOn day patients with
    | [] => None
    | l =>
        let o := Day.set_confirmed (confirmedIn l) newDay in
        Some match last (rowsOn day manualDailyData) with
             | Some row => applyDailyRow row o
             | None => o
             end
    end.
Proof.
  unfold dailySummaryOf. rewrite merged_lookup, counted_lookup.
  destruct (patientsOn day patients); [done|].
  simpl. by rewrite applyDailyRows_last.
Qed.

Lemma dateIs_true day p : dateIs day p = true <-> dateAnnounced p = Some day.
Proof.
  unfold dateIs. destruct (dateAnnounced p) as [d|]; [|done].
  rewrite String.eqb_eq. split; congruence.
Qed.

Lemma patientsOn_elem_of day patients p :
  In p (patientsOn day patients)
  <-> p ∈ patients /\ truthy (dateAnnounced p) = true
      /\ dateAnnounced p = Some day.
Proof.
  unfold patientsOn. rewrite List.filter_In, andb_true_iff, dateIs_true.
  by rewrite list_elem_of_In.
Qed.

Lemma announcedDates_elem_of day patients :
  day ∈ announcedDates patients
  <-> exists p, p ∈ patients /\ truthy (dateAnnounced p) = true
                /\ dateAnnounced p = Some day.
Proof.
  unfold announcedDates. rewrite elem_of_remove_dups, list_elem_of_omap.
  split; intros (p & Hp & H); exists p; (split; [done|]).
  - destruct (truthy (dateAnnounced p)); [done | discriminate].
  - destruct H as [-> H]. done.
Qed.

Lemma patientsOn_nonempty day patients :
  patientsOn day patients <> [] <-> day ∈ announcedDates patients.
Proof.
  rewrite announcedDates_elem_of. split.
  - intros Hne. destruct (patientsOn day patients) as [|p l] eqn:E; [done|].
    exists p. apply patientsOn_elem_of. rewrite E. by left.
  - intros (p & Hp) Hnil. apply patientsOn_elem_of in Hp.
    by rewrite Hnil in Hp.
Qed.

Lemma dailySummaryOf_is_Some patients manualDailyData day :
  is_Some (dailySummaryOf patients manualDailyData !! day)
  <-> day ∈ announcedDates patients.
Proof.
  rewrite dailySummaryOf_lookup, <- patientsOn_nonempty.
  destruct (patientsOn day patients); simpl.
  - split; [by intros [? ?] | done].
  - split; [done | by eexists].
Qed.

Lemma datedPairs_elem_of patients manualDailyData day o :
  (day, o) ∈ datedPairs patients manualDailyData
  <-> dailySummaryOf patients manualDailyData !! day = Some o.
Proof.
  unfold datedPairs. rewrite sortBy_Permutation. apply elem_of_map_to_list.
Qed.

(** The dates of the ordered pairs are the distinct dates of the patients
    in ascending order, whatever the manual rows. *)
Lemma datedPairs_keys patients manualDailyData :
  (datedPairs patients manualDailyData).*1 = sortedDates patients.
Proof.
  apply (StronglySorted_unique_strong (fun a b => String.leb a b = true)).
  - intros x y _ _. apply String.leb_antisym.
  - apply (StronglySorted_fmap fst (keyLe fst String.leb)); [done|].
    apply sortBy_sorted; [apply String.leb_total | apply String_leb_trans].
  - apply (sortBy_sorted id String.leb);
      [apply String.leb_total | apply String_leb_trans].
  - unfold datedPairs, sortedDates. rewrite !sortBy_Permutation.
    apply NoDup_Permutation.
    + apply NoDup_fst_map_to_list.
    + apply NoDup_remove_dups.
    + intros day. rewrite <- dailySummaryOf_is_Some, list_elem_of_fmap.
      split.
      * intros ([d o] & -> & Hin). apply elem_of_map_to_list in Hin.
        by eexists.
      * intros [o Ho]. exists (day, o). split; [done|].
        by apply elem_of_map_to_list.
Qed.

Lemma orderedDailySummary_length patients manualDailyData :
  length (orderedDailySummary patients manualDailyData)
  = length (sortedDates patients).
Proof.
  rewrite <- (datedPairs_keys patients manualDailyData), length_fmap.
  unfold orderedDailySummary, orderByDate.
  by rewrite forwardFill_length, rollingAverages_length, cumulate_length,
             length_fmap.
Qed.

Lemma orderedDailySummary_date_lookup patients manualDailyData k e :
  orderedDailySummary patients manualDailyData !! k = Some e ->
  exists day o,
    sortedDates patients !! k = Some day
    /\ Day.date e = Some day
    /\ dailySummaryOf patients manualDailyData !! day = Some o
    /\ Day.confirmed e = Day.confirmed o.
Proof.
  intros He.
  apply orderedDailySummary_lookup in He as (day & o & Hp & Hd & Hc & _).
  exists day, o. split; [|split; [done|split; [|done]]].
  - rewrite <- (datedPairs_keys patients manualDailyData), list_lookup_fmap.
    by rewrite Hp.
  - apply datedPairs_elem_of. by eapply list_elem_of_lookup_2.
Qed.


(** X2.  In the ordered daily summary, confirmed of the entry of a day is
    the number of confirmed patients announced on that day; a patient that
    is not confirmed makes the day exist and adds nothing. *)
Theorem orderedDailySummary_confirmed patients manualDailyData e day :
  e ∈ orderedDailySummary patients manualDailyData ->
  Day.date e = Some day ->
  patientsOn day patients <> []
  /\ Day.confirmed e = confirmedIn (patientsOn day patients).
Proof.
  intros (k & Hk)%list_elem_of_lookup Hday.
  apply orderedDailySummary_date_lookup in Hk as (day' & o & _ & Hd & Ho & Hc).
  assert (day' = day) as -> by congruence.
  rewrite dailySummaryOf_lookup in Ho.
  destruct (patientsOn day patients) as [|p l]; [done|].
  split; [done|]. rewrite Hc. injection Ho as <-.
  by destruct (last (rowsOn day manualDailyData)).
Qed.

Lemma orderedDailySummary_confirmed_witness :
  exists e,
    orderedDailySummary fourDays [] !! 2%nat = Some e
    /\ Day.confirmed e = confirmedIn (patientsOn "2020-03-03" fourDays)
    /\ confirmedIn (patientsOn "2020-03-03" fourDays) = 3.
Proof.
  destruct (orderedDailySummary fourDays [] !! 2%nat) as [e|] eqn:E;
    [|by vm_compute in E].
  exists e. split; [done|]. split; [|by vm_compute].
  apply (orderedDailySummary_confirmed fourDays [] e "2020-03-03").
  - by eapply list_elem_of_lookup_2.
  - vm_compute in E. by injection E as <-.
Defined.


Lemma filter_Permutation_In {A} (f : A -> bool) (l k : list A) :
  l ≡ₚ k -> List.filter f l ≡ₚ List.filter f k.
Proof.
  induction 1 as [|x l k _ IH|x y l|l k m _ IH1 _ IH2]; simpl.
  - done.
  - destruct (f x); [by constructor | done].
  - destruct (f x), (f y); try done. apply Permutation_swap.
  - by etrans.
Qed.

Lemma dailySummaryOf_Permutation patients patients' manualDailyData :
  patients ≡ₚ patients' ->
  dailySummaryOf patients manualDailyData
  = dailySummaryOf patients' manualDailyData.
Proof.
  intros Hp. apply map_eq. intros day. rewrite !dailySummaryOf_lookup.
  assert (Hperm : patientsOn day patients ≡ₚ patientsOn day patients')
    by (by apply filter_Permutation_In).
  assert (Hc : confirmedIn (patientsOn day patients)
               = confirmedIn (patientsOn day patients')).
  { unfold confirmedIn. f_equal. apply Permutation_length.
    by apply filter_Permutation_In. }
  destruct (patientsOn day patients) as [|p l] eqn:E1,
           (patientsOn day patients') as [|p' l'] eqn:E2.
  - done.
  - by apply Permutation_nil_l in Hperm.
  - by apply Permutation_nil_r in Hperm.
  - simpl. by rewrite Hc.
Qed.

(** X4.  The daily summary does not depend on the order of the patients:
    two lists with the same records give the same result, so the sort by
    date that summarize applies first changes nothing in it. *)
Theorem generateDailySummary_Permutation
    string_lt_one patients patients' manualDailyData :
  patients ≡ₚ patients' ->
  generateDailySummary string_lt_one patients manualDailyData
  = generateDailySummary string_lt_one patients' manualDailyData.
Proof.
  intros Hp. unfold generateDailySummary. f_equal.
  change (orderedDailySummary patients manualDailyData)
    with (forwardFill (rollingAverages [] [] 0 0
            (cumulate 0 (orderByDate
               (dailySummaryOf patients manualDailyData))))).
  by rewrite (dailySummaryOf_Permutation _ _ _ Hp).
Qed.

Lemma generateDailySummary_Permutation_witness :
  generateDailySummary (fun _ => false) tenDays []
  = generateDailySummary (fun _ => false) (reverse tenDays) [].
Proof.
  apply generateDailySummary_Permutation.
  symmetry. apply reverse_Permutation.
Defined.

(** ** The manual counters of the daily summary *)

Lemma manualFields_cumulative field cell :
  (field, cell) ∈ manualFields -> field ∈ manualCumulatives.
Proof.
  unfold manualFields, manualCumulatives. intros Hin.
  repeat (apply elem_of_cons in Hin as [[= -> ->] | Hin]);
    [..| by apply elem_of_nil in Hin].
  - apply elem_of_cons. by left.
  - do 1 (apply elem_of_cons; right). apply elem_of_cons. by left.
  - do 2 (apply elem_of_cons; right). apply elem_of_cons. by left.
  - do 3 (apply elem_of_cons; right). apply elem_of_cons. by left.
Qed.

Lemma applyDailyRow_field field cell row o :
  (field, cell) ∈ manualFields ->
  field (applyDailyRow row o) = safeParseInt (cell row).
Proof.
  unfold manualFields. intros Hin.
  repeat (apply elem_of_cons in Hin as [[= -> ->] | Hin]);
    [..| by apply elem_of_nil in Hin]; done.
Qed.

Lemma dailySummaryOf_manual patients manualDailyData day o field cell :
  (field, cell) ∈ manualFields ->
  dailySummaryOf patients manualDailyData !! day = Some o ->
  field o = manualValue cell day manualDailyData.
Proof.
  intros Hf. rewrite dailySummaryOf_lookup. unfold manualValue.
  destruct (patientsOn day patients); [done|].
  intros [= <-]. destruct (last (rowsOn day manualDailyData)).
  - by apply applyDailyRow_field.
  - unfold manualFields in Hf.
    repeat (apply elem_of_cons in Hf as [[= -> ->] | Hf]);
      [..| by apply elem_of_nil in Hf]; done.
Qed.

Lemma beforeForwardFill_length patients manualDailyData :
  length (beforeForwardFill patients manualDailyData)
  = length (sortedDates patients).
Proof.
  rewrite <- (orderedDailySummary_length patients manualDailyData).
  symmetry. apply forwardFill_length.
Qed.

(** The manual counters of an entry when the forward-fill loop starts. *)
Lemma beforeForwardFill_lookup patients manualDailyData k x :
  beforeForwardFill patients manualDailyData !! k = Some x ->
  exists day o,
    sortedDates patients !! k = Some day
    /\ dailySummaryOf patients manualDailyData !! day = Some o
    /\ forall field, field ∈ manualCumulatives -> field x = field o.
Proof.
  intros Hx. unfold beforeForwardFill in Hx.
  set (o1 := orderByDate (dailySummaryOf patients manualDailyData)) in *.
  assert (Hlen : (k < length o1)%nat).
  { apply lookup_lt_Some in Hx.
    by rewrite rollingAverages_length, cumulate_length in Hx. }
  destruct (lookup_lt_is_Some_2 o1 k Hlen) as [d1 Hd1].
  pose proof (cumulate_lookup o1 0 k d1 Hd1) as Hd2.
  pose proof (rollingAverages_lookup (cumulate 0 o1) [] 0 0 k _ Hd2) as Hd3.
  change (window 3 []) with (@nil Z) in Hd3.
  change (window 7 []) with (@nil Z) in Hd3.
  rewrite Hd3 in Hx. injection Hx as <-.
  unfold o1, orderByDate in Hd1. rewrite list_lookup_fmap in Hd1.
  change (sortBy fst String.leb
            (map_to_list (dailySummaryOf patients manualDailyData)))
    with (datedPairs patients manualDailyData) in Hd1.
  destruct (datedPairs patients manualDailyData !! k) as [[day o]|] eqn:Hp;
    [|done].
  injection Hd1 as <-. exists day, o. split; [|split].
  - by rewrite <- (datedPairs_keys patients manualDailyData),
               list_lookup_fmap, Hp.
  - apply datedPairs_elem_of. by eapply list_elem_of_lookup_2.
  - intros field Hf. unfold manualCumulatives in Hf.
    repeat (apply elem_of_cons in Hf as [-> | Hf]);
      [..| by apply elem_of_nil in Hf]; done.
Qed.

(** X5.  Each of the four manual counters of an entry of the ordered
    summary is the cell of the last manual row of that day, parsed, when
    this is not 0.  When it is 0, or the day has no row, the counter is 0
    in the first entry and the counter of the entry before in every later
    entry. *)
Theorem orderedDailySummary_manual_counters
    patients manualDailyData k e day field cell :
  (field, cell) ∈ manualFields ->
  orderedDailySummary patients manualDailyData !! k = Some e ->
  Day.date e = Some day ->
  let v := manualValue cell day manualDailyData in
  (v <> 0 -> field e = v)
  /\ (v = 0 -> k = 0%nat -> field e = 0)
  /\ (v = 0 -> forall k' previous,
        k = S k' ->
        orderedDailySummary patients manualDailyData !! k' = Some previous ->
        field e = field previous).
Proof.
  intros Hf He Hday v.
  pose proof (manualFields_cumulative _ _ Hf) as Hfc.
  assert (Hlen : (k < length (beforeForwardFill patients manualDailyData))%nat).
  { apply lookup_lt_Some in He.
    by rewrite orderedDailySummary_length,
               <- (beforeForwardFill_length patients manualDailyData) in He. }
  destruct (lookup_lt_is_Some_2 _ k Hlen) as [x Hx].
  destruct (beforeForwardFill_lookup _ _ _ _ Hx) as (day' & o & Hs & Ho & Hfx).
  destruct (orderedDailySummary_date_lookup _ _ _ _ He)
    as (day'' & _ & Hs' & Hd' & _).
  assert (day' = day) as -> by congruence.
  assert (Hv : field x = v).
  { rewrite (Hfx field Hfc). by apply (dailySummaryOf_manual patients). }
  change (orderedDailySummary patients manualDailyData)
    with (forwardFill (beforeForwardFill patients manualDailyData)) in *.
  destruct k as [|k].
  - rewrite forwardFill_head, Hx in He. injection He as <-.
    split; [done|]. split; [by intros <- _ | by intros _ k' ? [=]].
  - destruct (lookup_lt_is_Some_2
                (forwardFill (beforeForwardFill patients manualDailyData)) k)
      as [p Hp].
    { rewrite forwardFill_length. lia. }
    rewrite (forwardFill_step _ _ _ _ Hx Hp) in He. injection He as <-.
    rewrite (passForward_field _ _ _ Hfc), Hv.
    split; [|split].
    + intros Hne. by apply Z.eqb_neq in Hne as ->.
    + by intros _ [=].
    + intros -> k' previous [= <-] Hprev. simpl. congruence.
Qed.

Lemma orderedDailySummary_manual_counters_witness :
  exists e,
    orderedDailySummary fourDays [DailyRow.mk "2020-03-02" (JStr "7") JUndefined
                                    JUndefined JUndefined]
      !! 1%nat = Some e
    /\ Day.recoveredCumulative e = 7.
Proof.
  set (rows := [DailyRow.mk "2020-03-02" (JStr "7") JUndefined
                  JUndefined JUndefined]).
  destruct (orderedDailySummary fourDays rows !! 1%nat) as [e|] eqn:E;
    [|by vm_compute in E].
  exists e. split; [done|].
  apply (orderedDailySummary_manual_counters fourDays rows 1 e "2020-03-02"
           Day.recoveredCumulative DailyRow.recovered).
  - unfold manualFields. apply elem_of_cons. by left.
  - exact E.
  - vm_compute in E. by injection E as <-.
  - by vm_compute.
Defined.

(** ** The forward fill, as a whole *)

Lemma Day_ext (a b : Day.t) :
  sameCounts a b ->
  (forall field, field ∈ manualCumulatives -> field a = field b) ->
  a = b.
Proof.
  intros (H1 & H2 & H3 & H4 & H5 & H6 & H7) Hf.
  assert (G1 : Day.recoveredCumulative a = Day.recoveredCumulative b).
  { apply Hf. unfold manualCumulatives. apply elem_of_cons. by left. }
  assert (G2 : Day.deceasedCumulative a = Day.deceasedCumulative b).
  { apply Hf. unfold manualCumulatives.
    do 1 (apply elem_of_cons; right). apply elem_of_cons. by left. }
  assert (G3 : Day.criticalCumulative a = Day.criticalCumulative b).
  { apply Hf. unfold manualCumulatives.
    do 2 (apply elem_of_cons; right). apply elem_of_cons. by left. }
  assert (G4 : Day.testedCumulative a = Day.testedCumulative b).
  { apply Hf. unfold manualCumulatives.
    do 3 (apply elem_of_cons; right). apply elem_of_cons. by left. }
  clear Hf. destruct a, b. simpl in *. congruence.
Qed.

Lemma passForward_idempotent previousDay thisDay :
  passForward previousDay (passForward previousDay thisDay)
  = passForward previousDay thisDay.
Proof.
  apply Day_ext.
  - apply passForward_sameCounts.
  - intros field Hf. rewrite !(passForward_field _ _ _ Hf).
    destruct (Z.eqb_spec (field thisDay) 0) as [H0|Hne].
    + by destruct (Z.eqb_spec (field previousDay) 0).
    + by apply Z.eqb_neq in Hne as ->.
Qed.

Lemma forwardFillFrom_idempotent l : forall previousDay,
  forwardFillFrom previousDay (forwardFillFrom previousDay l)
  = forwardFillFrom previousDay l.
Proof.
  induction l as [|t l IH]; intros p; simpl; [done|].
  by rewrite passForward_idempotent, IH.
Qed.

(** X6.  The forward fill changes nothing in a summary that it has
    filled. *)
Theorem forwardFill_idempotent (l : list Day.t) :
  forwardFill (forwardFill l) = forwardFill l.
Proof.
  destruct l as [|first l]; simpl; [done|].
  by rewrite forwardFillFrom_idempotent.
Qed.

(** X7.  After the forward fill a manual counter that is not 0 in an entry
    is not 0 in any later entry: the zeros of a counter are all at the
    start of the summary. *)
Theorem forwardFill_zeros_first (l : list Day.t) field i j a b :
  field ∈ manualCumulatives ->
  (i <= j)%nat ->
  forwardFill l !! i = Some a -> forwardFill l !! j = Some b ->
  field a <> 0 -> field b <> 0.
Proof.
  intros Hf Hij Ha Hb Hne. revert b Hb.
  induction Hij as [|j Hij IH]; intros b Hb.
  - congruence.
  - assert (Hlen : (S j < length l)%nat).
    { apply lookup_lt_Some in Hb. by rewrite forwardFill_length in Hb. }
    destruct (lookup_lt_is_Some_2 l (S j) Hlen) as [t Ht].
    destruct (lookup_lt_is_Some_2 (forwardFill l) j) as [p Hp].
    { rewrite forwardFill_length. lia. }
    rewrite (forwardFill_step _ _ _ _ Ht Hp) in Hb. injection Hb as <-.
    rewrite (passForward_field _ _ _ Hf).
    destruct (Z.eqb_spec (field t) 0); [by apply IH | done].
Qed.

Lemma forwardFill_zeros_first_witness :
  exists b,
    forwardFill [goodDay; newDay; newDay] !! 2%nat = Some b
    /\ Day.testedCumulative b <> 0.
Proof.
  eexists. split; [reflexivity|].
  apply (forwardFill_zeros_first [goodDay; newDay; newDay]
           Day.testedCumulative 0 2 goodDay).
  - unfold manualCumulatives. do 3 (apply elem_of_cons; right).
    apply elem_of_cons. by left.
  - lia.
  - reflexivity.
  - reflexivity.
  - by vm_compute.
Defined.

(** ** The counts of the daily summary and the manual rows *)

Lemma dailySummaryOf_confirmed patients manualDailyData day o :
  dailySummaryOf patients manualDailyData !! day = Some o ->
  Day.confirmed o = confirmedIn (patientsOn day patients).
Proof.
  rewrite dailySummaryOf_lookup.
  destruct (patientsOn day patients); [done|]. intros [= <-].
  by destruct (last (rowsOn day manualDailyData)).
Qed.

(** The counts of the ordered summary, day by day. *)
Lemma confirmedCounts_by_day patients manualDailyData :
  confirmedCounts patients manualDailyData
  = (fun day => confirmedIn (patientsOn day patients)) <$> sortedDates patients.
Proof.
  apply list_eq. intros k. unfold confirmedCounts. rewrite !list_lookup_fmap.
  destruct (orderedDailySummary patients manualDailyData !! k) as [e|] eqn:E.
  - apply orderedDailySummary_date_lookup in E as (day & o & Hs & _ & Ho & Hc).
    rewrite Hs. simpl. rewrite Hc.
    by rewrite (dailySummaryOf_confirmed _ _ _ _ Ho).
  - apply lookup_ge_None in E. rewrite orderedDailySummary_length in E.
    apply lookup_ge_None in E. by rewrite E.
Qed.

(** X8.  The manual rows change nothing but the four manual counters: with
    any two manual sheets the ordered summaries have the same days, and
    day by day the same confirmed, confirmedCumulative, averages and
    cumulative averages. *)
Theorem orderedDailySummary_counts_independent_of_manual
    patients manualDailyData manualDailyData' :
  Forall2 sameCounts (orderedDailySummary patients manualDailyData)
                     (orderedDailySummary patients manualDailyData').
Proof.
  apply Forall2_same_length_lookup_2.
  - by rewrite !orderedDailySummary_length.
  - intros k a b Ha Hb.
    pose proof (confirmedCounts_by_day patients manualDailyData) as Hc.
    pose proof (confirmedCounts_by_day patients manualDailyData') as Hc'.
    destruct (orderedDailySummary_date_lookup _ _ _ _ Ha)
      as (day & o & Hs & Hda & Ho & Hca).
    destruct (orderedDailySummary_date_lookup _ _ _ _ Hb)
      as (day' & o' & Hs' & Hdb & Ho' & Hcb).
    assert (day' = day) as -> by congruence.
    apply orderedDailySummary_lookup in Ha
      as (? & ? & _ & _ & _ & A1 & A2 & A3 & A4 & A5).
    apply orderedDailySummary_lookup in Hb
      as (? & ? & _ & _ & _ & B1 & B2 & B3 & B4 & B5).
    rewrite Hc in A1, A2, A3, A4, A5. rewrite Hc' in B1, B2, B3, B4, B5.
    unfold sameCounts.
    rewrite Hca, Hcb, Hda, Hdb, A1, A2, A3, A4, A5, B1, B2, B3, B4, B5.
    rewrite (dailySummaryOf_confirmed _ _ _ _ Ho),
            (dailySummaryOf_confirmed _ _ _ _ Ho').
    by repeat split.
Qed.

(** ** Bounds on the averages *)

Lemma sum_fmap_plus {A} (f : A -> Z) (c : Z) (l : list A) :
  sum ((fun x => f x + c) <$> l) = sum (f <$> l) + Z.of_nat (length l) * c.
Proof.
  unfold sum. induction l as [|x l IH]; [simpl; lia|].
  rewrite !fmap_cons. cbn [foldr length]. rewrite IH. lia.
Qed.

Lemma sum_fmap_nonneg {A} (f : A -> Z) (l : list A) :
  (forall x, 0 <= f x) -> 0 <= sum (f <$> l).
Proof.
  intros Hf. apply sum_nonneg, Forall_fmap, Forall_forall. intros x _. apply Hf.
Qed.

Lemma sum_fmap_le {A} (f g : A -> Z) (l : list A) :
  (forall x, f x <= g x) -> sum (f <$> l) <= sum (g <$> l).
Proof.
  intros Hfg. unfold sum. induction l as [|x l IH]; [done|].
  rewrite !fmap_cons. cbn [foldr]. specialize (Hfg x). lia.
Qed.

Lemma sum_fmap_mul {A} (f : A -> Z) (n : Z) (l : list A) :
  sum ((fun x => n * f x) <$> l) = n * sum (f <$> l).
Proof.
  unfold sum. induction l as [|x l IH]; [simpl; lia|].
  rewrite !fmap_cons. cbn [foldr]. rewrite IH. lia.
Qed.

Lemma window_snoc_cons m values x :
  window (S m) (values ++ [x]) = window m values ++ [x].
Proof.
  unfold window. rewrite length_app. simpl length.
  replace (length values + 1 - S m)%nat with (length values - m)%nat by lia.
  apply drop_app_le. lia.
Qed.

Lemma window_nonneg n values :
  Forall (fun x => 0 <= x) values -> 0 <= sum (window n values).
Proof. intros H. apply sum_nonneg. unfold window. by apply Forall_drop. Qed.

Lemma window_nil_sums (l : list nat) :
  sum ((fun m => sum (window m [])) <$> l) = 0.
Proof.
  unfold sum. induction l as [|m l IH]; [done|].
  rewrite fmap_cons. cbn [foldr]. rewrite IH. by destruct m.
Qed.

(** Every value is in at most [n] of the windows of width [n]: the sums of
    the windows of all the prefixes, with what the last values still owe,
    make [n] times the sum of the values. *)
Lemma window_sums_total n values :
  sum ((fun j => sum (window (S n) (take (S j) values)))
         <$> seq 0 (length values))
  + sum ((fun m => sum (window m values)) <$> seq 1 n)
  = Z.of_nat (S n) * sum values.
Proof.
  induction values as [|x values IH] using rev_ind.
  - simpl length. simpl seq. rewrite fmap_nil, window_nil_sums.
    unfold sum. simpl. lia.
  - rewrite length_app. simpl length.
    rewrite Nat.add_1_r, seq_S, fmap_app, sum_app. simpl seq.
    rewrite fmap_cons, fmap_nil.
    assert (Hfirst :
      (fun j => sum (window (S n) (take (S j) (values ++ [x]))))
        <$> seq 0 (length values)
      = (fun j => sum (window (S n) (take (S j) values)))
          <$> seq 0 (length values)).
    { apply list_fmap_ext. intros i j Hj.
      apply lookup_seq in Hj as [-> Hi]. simpl.
      by rewrite take_app_le by lia. }
    rewrite Hfirst.
    rewrite take_ge by (rewrite length_app; simpl; lia).
    rewrite window_snoc_cons, sum_app.
    assert (Hsecond :
      sum ((fun m => sum (window m (values ++ [x]))) <$> seq 1 n)
      = sum ((fun m => sum (window m values)) <$> seq 0 n) + Z.of_nat n * x).
    { rewrite <- (fmap_S_seq 0 n), <- list_fmap_compose.
      transitivity (sum ((fun m => sum (window m values) + x) <$> seq 0 n)).
      - f_equal. apply list_fmap_ext. intros i m _. simpl.
        rewrite window_snoc_cons, sum_app. unfold sum. simpl. lia.
      - by rewrite sum_fmap_plus, length_seq. }
    rewrite Hsecond.
    assert (Hshift :
      sum ((fun m => sum (window m values)) <$> seq 0 n)
      + sum (window n values)
      = sum ((fun m => sum (window m values)) <$> seq 1 n)).
    { transitivity (sum ((fun m => sum (window m values)) <$> seq 0 (S n))).
      - rewrite seq_S, fmap_app, sum_app, fmap_cons, fmap_nil.
        f_equal. unfold sum. cbn [foldr]. rewrite Nat.add_0_l.
        symmetry. apply Z.add_0_r.
      - rewrite <- cons_seq, fmap_cons.
        unfold window at 1. rewrite Nat.sub_0_r, drop_all.
        unfold sum. cbn [foldr]. done. }
    assert (Hone : forall y, sum [y] = y)
      by (intros y; unfold sum; cbn [foldr]; apply Z.add_0_r).
    rewrite sum_app, !Hone. clear Hfirst Hsecond. lia.
Qed.

(** The running sum of the averages of width [n] is at most the sum of
    the values. *)
Lemma runningSum_windowAvg_le n values k :
  Forall (fun x => 0 <= x) values -> (k < length values)%nat ->
  0 <= windowAvg (S n) values k
  /\ 0 <= runningSum (windowAvg (S n) values) k <= sum (take (S k) values).
Proof.
  intros Hpos Hk.
  assert (Hn : 0 < Z.of_nat (S n)) by lia.
  assert (Havg : forall j, 0 <= windowAvg (S n) values j).
  { intros j. unfold windowAvg. apply Z.div_pos; [|done].
    by apply window_nonneg, Forall_take. }
  split; [apply Havg|]. split.
  { unfold runningSum. by apply sum_fmap_nonneg. }
  set (prefix := take (S k) values).
  assert (Hlen : length prefix = S k).
  { unfold prefix. rewrite length_take. lia. }
  pose proof (window_sums_total n prefix) as Htotal. rewrite Hlen in Htotal.
  assert (Hrest : 0 <= sum ((fun m => sum (window m prefix)) <$> seq 1 n)).
  { apply sum_fmap_nonneg. intros m.
    by apply window_nonneg, Forall_take. }
  assert (Hle : Z.of_nat (S n) * runningSum (windowAvg (S n) values) k
                <= sum ((fun j => sum (window (S n) (take (S j) prefix)))
                          <$> seq 0 (S k))).
  { unfold runningSum. rewrite <- sum_fmap_mul.
    set (f := fun j => Z.of_nat (S n) * windowAvg (S n) values j).
    set (g := fun j => sum (window (S n) (take (S j) values))).
    transitivity (sum (g <$> seq 0 (S k))).
    - apply sum_fmap_le. intros j. unfold f, g, windowAvg.
      by apply Z.mul_div_le.
    - apply Z.eq_le_incl. f_equal. apply list_fmap_ext. intros i j Hj.
      apply lookup_seq in Hj as [-> Hi]. unfold g, prefix. simpl.
      by rewrite take_take, Nat.min_l by lia. }
  fold prefix. nia.
Qed.

(** X9.  In the ordered summary the averages are never negative, and the
    cumulative 3-day and 7-day averages are between 0 and
    confirmedCumulative: the averages of the days, added up, never exceed
    the number of confirmed cases so far. *)
Theorem orderedDailySummary_average_bounds patients manualDailyData e :
  e ∈ orderedDailySummary patients manualDailyData ->
  exists c a3 c3 a7 c7,
    Day.confirmedCumulative e = Some c
    /\ Day.confirmedAvg3d e = Some a3
    /\ Day.confirmedCumulativeAvg3d e = Some c3
    /\ Day.confirmedAvg7d e = Some a7
    /\ Day.confirmedCumulativeAvg7d e = Some c7
    /\ 0 <= a3 /\ 0 <= a7 /\ 0 <= c3 <= c /\ 0 <= c7 <= c.
Proof.
  intros (k & Hk)%list_elem_of_lookup.
  assert (Hlen : (k < length (confirmedCounts patients manualDailyData))%nat).
  { unfold confirmedCounts. rewrite length_fmap. by eapply lookup_lt_Some. }
  apply orderedDailySummary_lookup in Hk
    as (? & ? & _ & _ & _ & Hc & H3 & Hc3 & H7 & Hc7).
  pose proof (counts_nonneg patients manualDailyData) as Hpos.
  destruct (runningSum_windowAvg_le 2 _ k Hpos Hlen) as (A1 & A2).
  destruct (runningSum_windowAvg_le 6 _ k Hpos Hlen) as (B1 & B2).
  eexists _, _, _, _, _. repeat (split; [eassumption|]).
  done.
Qed.

Lemma orderedDailySummary_average_bounds_witness :
  exists e c c3,
    orderedDailySummary fourDays [] !! 3%nat = Some e
    /\ Day.confirmedCumulative e = Some c
    /\ Day.confirmedCumulativeAvg3d e = Some c3
    /\ 0 <= c3 <= c.
Proof.
  destruct (orderedDailySummary fourDays [] !! 3%nat) as [e|] eqn:E;
    [|by vm_compute in E].
  apply list_elem_of_lookup_2 in E as Hin.
  destruct (orderedDailySummary_average_bounds _ _ _ Hin)
    as (c & a3 & c3 & a7 & c7 & H1 & _ & H3 & _ & _ & _ & _ & H & _).
  exists e, c, c3. exact (conj eq_refl (conj H1 (conj H3 H))).
Defined.

(** ** The entries of the summary of the prefectures, exactly *)

Lemma mergePrefectureRow_get d row k :
  dict_get (mergePrefectureRow d row) k
  = if String.eqb (PrefectureRow.prefecture row) k
    then applyPrefectureRow row <$> dict_get d k
    else dict_get d k.
Proof.
  unfold mergePrefectureRow.
  destruct (dict_get d (PrefectureRow.prefecture row)) eqn:E.
  - apply dict_get_alter.
  - destruct (String.eqb_spec (PrefectureRow.prefecture row) k) as [<-|];
      [by rewrite E | done].
Qed.

Lemma applyPrefectureRow_twice row row' o :
  applyPrefectureRow row (applyPrefectureRow row' o) = applyPrefectureRow row o.
Proof. by destruct o. Qed.

Lemma applyPrefectureRows_last rows : forall o,
  foldl (fun o row => applyPrefectureRow row o) o rows = applyLastRow rows o.
Proof.
  unfold applyLastRow.
  induction rows as [|row rows IH] using rev_ind; intros o; [done|].
  rewrite foldl_snoc, last_snoc, IH.
  destruct (last rows); [apply applyPrefectureRow_twice | done].
Qed.

Lemma mergePrefectureRows_get rows k : forall d,
  dict_get (foldl mergePrefectureRow d rows) k
  = applyLastRow (prefectureRowsOf k rows) <$> dict_get d k.
Proof.
  intros d.
  transitivity
    ((fun o => foldl (fun o row => applyPrefectureRow row o) o
                     (prefectureRowsOf k rows)) <$> dict_get d k).
  - revert d. unfold prefectureRowsOf.
    induction rows as [|row rows IH]; intros d; simpl.
    + by destruct (dict_get d k).
    + rewrite IH, mergePrefectureRow_get.
      destruct (String.eqb (PrefectureRow.prefecture row) k); [|done].
      by destruct (dict_get d k).
  - destruct (dict_get d k); [|done]. simpl.
    by rewrite applyPrefectureRows_last.
Qed.

Lemma dict_get_Some_elem_of {V} (d : dict V) k v :
  dict_get d k = Some v -> (k, v) ∈ d.
Proof.
  induction d as [|[k0 v0] d IH]; simpl; [done|].
  destruct (String.eqb_spec k0 k) as [->|].
  - intros [= ->]. apply elem_of_cons. by left.
  - intros H. apply elem_of_cons. right. by apply IH.
Qed.

Section GeneratePrefectureSummaryEntries.

Variable moment : string -> Z.
Variable format : Z -> string.
Variable clock : nat -> Z.
Variable patients : list Patient.
Variable manualPrefectureData : list PrefectureRow.t.

(** Every entry of the result is the summary of the records of one
    prefecture, with the daily series of one read of the clock, the last
    manual row of the prefecture, no patients and the name. *)
Lemma generatePrefectureSummary_entry_eq e :
  e ∈ generatePrefectureSummary moment format clock patients manualPrefectureData ->
  exists prefectureName i,
    regionOf prefectureName patients <> []
    /\ e = Prefecture.set_name prefectureName
             (Prefecture.set_patients None
                (applyLastRow
                   (prefectureRowsOf prefectureName manualPrefectureData)
                   (attachDailyStats moment format clock i
                      (prefectureName,
                       addPatients newPrefecture
                                   (regionOf prefectureName patients))).2)).
Proof.
  unfold generatePrefectureSummary.
  set (D := foldl countPrefecturePatient [] patients).
  set (D1 := imap (attachDailyStats moment format clock) D).
  set (D2 := foldl mergePrefectureRow D1 manualPrefectureData).
  intros He.
  apply list_elem_of_fmap in He as ([k o3] & -> & Hin).
  rewrite elem_of_reverse, sortBy_Permutation in Hin.
  apply list_elem_of_fmap in Hin as ([k2 o2] & [= -> ->] & Hin).
  assert (Hnd1 : NoDup D1.*1).
  { unfold D1. rewrite attachDailyStats_keys. apply counted_NoDup. }
  assert (Hnd2 : NoDup D2.*1).
  { unfold D2. by rewrite mergePrefectureRows_keys. }
  apply (dict_get_elem_of _ _ _ Hnd2) in Hin.
  unfold D2 in Hin. rewrite mergePrefectureRows_get in Hin.
  destruct (dict_get D1 k2) as [o1|] eqn:Hget1; [|done].
  injection Hin as <-.
  apply dict_get_Some_elem_of, list_elem_of_lookup in Hget1 as [i Hi].
  unfold D1 in Hi. rewrite list_lookup_imap in Hi.
  destruct (D !! i) as [[k0 o]|] eqn:Hi0; [|done].
  simpl in Hi.
  assert (k0 = k2) as ->.
  { unfold attachDailyStats in Hi. simpl in Hi.
    destruct (0 <? _)%nat; by injection Hi. }
  assert (Hget : dict_get D k2 = Some o).
  { apply dict_get_elem_of; [apply counted_NoDup|].
    by eapply list_elem_of_lookup_2. }
  unfold D in Hget. rewrite counted_get in Hget.
  assert (Ho : regionOf k2 patients <> []
               /\ o = addPatients newPrefecture (regionOf k2 patients)).
  { destruct (regionOf k2 patients); [done|]. by injection Hget as <-. }
  destruct Ho as [Hne ->].
  exists k2, i. split; [done|].
  injection Hi as Hi. by rewrite Hi.
Qed.

End GeneratePrefectureSummaryEntries.


Lemma cityIs_true city p : cityIs city p = true <-> detectedCityTown p = Some city.
Proof.
  unfold cityIs. destruct (detectedCityTown p) as [c|]; [|done].
  rewrite String.eqb_eq. split; congruence.
Qed.



Lemma attachDailyStats_fields moment format clock i entry :
  let o := (attachDailyStats moment format clock i entry).2 in
  Prefecture.confirmed o = Prefecture.confirmed entry.2
  /\ Prefecture.cruisePassenger o = Prefecture.cruisePassenger entry.2
  /\ Prefecture.cruiseWorker o = Prefecture.cruiseWorker entry.2
  /\ Prefecture.confirmedByCity o = Prefecture.confirmedByCity entry.2
  /\ Prefecture.deaths o = Prefecture.deaths entry.2
  /\ Prefecture.recovered o = Prefecture.recovered entry.2
  /\ Prefecture.name_ja o = Prefecture.name_ja entry.2.
Proof. unfold attachDailyStats. simpl. by destruct (0 <? _)%nat. Qed.

(** X10.  The manual rows decide deaths, recovered and name_ja of a
    prefecture: with a row of the sheet for the prefecture, the three are
    those of its last row, read with safeParseInt; without one, deaths is
    the number of deceased records of the prefecture, and recovered and
    name_ja are absent. *)
Theorem generatePrefectureSummary_manual_fields
    moment format clock patients manualPrefectureData e prefectureName :
  e ∈ generatePrefectureSummary moment format clock patients manualPrefectureData ->
  Prefecture.name e = Some prefectureName ->
  match last (prefectureRowsOf prefectureName manualPrefectureData) with
  | Some row =>
      Prefecture.deaths e = safeParseInt (PrefectureRow.deaths row)
      /\ Prefecture.recovered e
         = Some (safeParseInt (PrefectureRow.recovered row))
      /\ Prefecture.name_ja e = Some (PrefectureRow.prefectureJa row)
  | None =>
      Prefecture.deaths e = deceasedIn (regionOf prefectureName patients)
      /\ Prefecture.recovered e = None
      /\ Prefecture.name_ja e = None
  end.
Proof.
  intros (k & i & _ & ->)%generatePrefectureSummary_entry_eq [= ->].
  unfold applyLastRow.
  destruct (last (prefectureRowsOf prefectureName manualPrefectureData))
    as [row|]; [done|].
  cbn [Prefecture.set_name Prefecture.set_patients Prefecture.deaths
       Prefecture.recovered Prefecture.name_ja].
  destruct (attachDailyStats_fields moment format clock i
              (prefectureName,
               addPatients newPrefecture (regionOf prefectureName patients)))
    as (_ & _ & _ & _ & -> & -> & ->).
  cbn [snd].
  destruct (addPatients_fields (regionOf prefectureName patients)
              newPrefecture [] eq_refl) as (_ & -> & _).
  repeat split.
  - clear. set (l := regionOf prefectureName patients). clearbody l.
    unfold addPatients.
    apply (foldl_invariant
             (fun o : Prefecture.t => Prefecture.recovered o = None)); [|done].
    intros o p Ho. unfold addPatient.
    destruct (confirmedPatient p), (truthy (detectedCityTown p)),
      (cruisePassengerDisembarked p =? 1), (cruiseQuarantineOfficer p =? 1),
      (String.eqb (patientStatus p) "Deceased"); exact Ho.
  - clear. set (l := regionOf prefectureName patients). clearbody l.
    unfold addPatients.
    apply (foldl_invariant
             (fun o : Prefecture.t => Prefecture.name_ja o = None)); [|done].
    intros o p Ho. unfold addPatient.
    destruct (confirmedPatient p), (truthy (detectedCityTown p)),
      (cruisePassengerDisembarked p =? 1), (cruiseQuarantineOfficer p =? 1),
      (String.eqb (patientStatus p) "Deceased"); exact Ho.
Qed.

Lemma generatePrefectureSummary_manual_fields_witness :
  exists e,
    generatePrefectureSummary (Calendar.moment 540) (Calendar.format 540)
      tenthOfMarch threeRegions
      [PrefectureRow.mk "Tokyo" (JStr "3") (JNum 1) "Tokyo-to";
       PrefectureRow.mk "Tokyo" (JStr "4 ") (JStr "") "Tokyo-to"]
      !! 0%nat = Some e
    /\ Prefecture.deaths e = 0
    /\ Prefecture.recovered e = Some 4.
Proof.
  set (rows := [PrefectureRow.mk "Tokyo" (JStr "3") (JNum 1) "Tokyo-to";
                PrefectureRow.mk "Tokyo" (JStr "4 ") (JStr "") "Tokyo-to"]).
  destruct (generatePrefectureSummary (Calendar.moment 540)
              (Calendar.format 540) tenthOfMarch threeRegions rows !! 0%nat)
    as [e|] eqn:E; [|by vm_compute in E].
  apply list_elem_of_lookup_2 in E as Hin.
  assert (Hname : Prefecture.name e = Some "Tokyo").
  { vm_compute in E. by injection E as <-. }
  pose proof (generatePrefectureSummary_manual_fields _ _ _ _ _ _ _ Hin Hname)
    as H.
  exists e. split; [done|]. exact (conj (proj1 H) (proj1 (proj2 H))).
Defined.



(** ** Counting the records group by group *)

Lemma sum_cons x l : sum (x :: l) = x + sum l.
Proof. done. Qed.

Lemma sum_fmap_add {A} (f g : A -> Z) (l : list A) :
  sum ((fun x => f x + g x) <$> l) = sum (f <$> l) + sum (g <$> l).
Proof.
  induction l as [|x l IH]; [done|].
  rewrite !fmap_cons, !sum_cons, IH. lia.
Qed.

Lemma sum_fmap_zero {A} (f : A -> Z) (l : list A) :
  (forall x, x ∈ l -> f x = 0) -> sum (f <$> l) = 0.
Proof.
  induction l as [|x l IH]; intros Hf; [done|].
  rewrite fmap_cons, sum_cons, IH, Hf; [done | by left |].
  intros y Hy. apply Hf. by right.
Qed.

Lemma sum_Permutation l l' : l ≡ₚ l' -> sum l = sum l'.
Proof.
  induction 1 as [|x l l' _ IH|x y l|l l' l'' _ IH1 _ IH2];
    rewrite ?sum_cons; [done | by rewrite IH | lia | congruence].
Qed.

Lemma filter_filter_length {A} (P Q : A -> bool) (l : list A) :
  length (List.filter P (List.filter Q l))
  = length (List.filter (fun x => Q x && P x) l).
Proof.
  induction l as [|x l IH]; [done|]. simpl.
  destruct (Q x); simpl; [|done]. destruct (P x); simpl; by rewrite IH.
Qed.

Lemma filter_length_ext {A} (P Q : A -> bool) (l : list A) :
  (forall x, x ∈ l -> P x = Q x) ->
  length (List.filter P l) = length (List.filter Q l).
Proof.
  induction l as [|x l IH]; intros H; [done|]. simpl.
  rewrite (H x) by (by left).
  destruct (Q x); simpl; rewrite IH; try done; intros y Hy; apply H; by right.
Qed.

Section Groups.
Context {A K : Type} (isIn : K -> A -> bool).
Hypothesis isIn_one :
  forall x k k', isIn k x = true -> isIn k' x = true -> k = k'.

(** An element is in at most one of the groups of a list of keys without
    duplicates. *)
Lemma groups_of_one x ks :
  NoDup ks ->
  sum ((fun k => if isIn k x then 1 else 0) <$> ks)
  = if existsb (fun k => isIn k x) ks then 1 else 0.
Proof.
  induction ks as [|k ks IH]; intros Hnd; [done|].
  apply NoDup_cons in Hnd as [Hk Hnd].
  rewrite fmap_cons, sum_cons. cbn [existsb].
  destruct (isIn k x) eqn:E; cbn [orb]; [|by rewrite IH].
  rewrite sum_fmap_zero; [done|].
  intros k' Hk'. destruct (isIn k' x) eqn:E'; [|done].
  exfalso. apply Hk. by rewrite (isIn_one x k k' E E').
Qed.

(** The sizes of the groups add up to the number of the elements that are
    in a group. *)
Lemma groups_count (P : A -> bool) ks l :
  NoDup ks ->
  sum ((fun k => Z.of_nat (length (List.filter (fun x => isIn k x && P x) l)))
         <$> ks)
  = Z.of_nat (length (List.filter
                        (fun x => P x && existsb (fun k => isIn k x) ks) l)).
Proof.
  intros Hnd. induction l as [|x l IH].
  - cbn [List.filter length]. by apply sum_fmap_zero.
  - transitivity
      (sum ((fun k => Z.of_nat (length (List.filter
                                           (fun x => isIn k x && P x) l))
                      + (if P x then if isIn k x then 1 else 0 else 0))
              <$> ks)).
    + f_equal. apply list_fmap_ext. intros i k _. cbn [List.filter].
      destruct (isIn k x), (P x); cbn [andb length]; lia.
    + rewrite sum_fmap_add, IH. cbn [List.filter].
      destruct (P x); cbn [andb].
      * rewrite (groups_of_one x ks Hnd).
        destruct (existsb _ ks); cbn [length]; lia.
      * rewrite sum_fmap_zero by done. lia.
Qed.

End Groups.

(** ** The prefectures share the confirmed records *)

Lemma existsb_eqb_elem_of (k : string) ks :
  existsb (fun k' => String.eqb k k') ks = true <-> k ∈ ks.
Proof.
  rewrite existsb_exists. split.
  - intros (k' & Hin & ->%String.eqb_eq). by apply list_elem_of_In.
  - intros Hin. exists k. split; [by apply list_elem_of_In|].
    apply String.eqb_refl.
Qed.

(** X12.  The prefectures share the confirmed records among them: the
    values of confirmed of the result add up to the number of confirmed
    records of the patients. *)
Theorem generatePrefectureSummary_confirmed_total
    moment format clock patients manualPrefectureData :
  sum (Prefecture.confirmed
         <$> generatePrefectureSummary moment format clock patients
               manualPrefectureData)
  = confirmedIn patients.
Proof.
  pose (summary := generatePrefectureSummary moment format clock patients
                     manualPrefectureData).
  set (names := (foldl countPrefecturePatient [] patients).*1).
  set (count := fun o : option string =>
                  match o with
                  | Some k => confirmedIn (regionOf k patients)
                  | None => 0
                  end).
  transitivity (sum (count <$> (Prefecture.name <$> summary))).
  { rewrite <- list_fmap_compose. f_equal. apply list_fmap_ext.
    intros i e He. apply list_elem_of_lookup_2 in He.
    apply generatePrefectureSummary_entry in He
      as (k & _ & Hname & _ & Hc & _).
    cbn [compose]. by rewrite Hname, Hc. }
  unfold summary. clear summary.
  rewrite (sum_Permutation _ _
             (fmap_Permutation count _ _
                (generatePrefectureSummary_names moment format clock patients
                   manualPrefectureData))).
  rewrite <- list_fmap_compose. fold names.
  transitivity
    (sum ((fun k => Z.of_nat (length (List.filter
             (fun p => String.eqb (detectedPrefecture p) k && confirmedPatient p)
             patients))) <$> names)).
  { f_equal. apply list_fmap_ext. intros i k _. cbn [compose count].
    unfold confirmedIn, regionOf. by rewrite filter_filter_length. }
  rewrite (groups_count (fun k p => String.eqb (detectedPrefecture p) k)).
  - unfold confirmedIn. f_equal. apply filter_length_ext. intros p Hp.
    assert (existsb (fun k => String.eqb (detectedPrefecture p) k) names
            = true) as ->; [|by rewrite andb_true_r].
    apply existsb_eqb_elem_of. apply counted_keys.
    by apply list_elem_of_fmap_2.
  - intros p k k' ->%String.eqb_eq ->%String.eqb_eq. done.
  - apply counted_NoDup.
Qed.

(** ** The series of a prefecture and its records *)

Lemma dateIs_one (o : Patient) d d' :
  dateIs d o = true -> dateIs d' o = true -> d = d'.
Proof. rewrite !dateIs_true. congruence. Qed.

Lemma announcedOn_le days patients :
  Z.of_nat (length (announcedOn days patients)) <= confirmedIn patients.
Proof.
  unfold announcedOn, confirmedIn.
  induction patients as [|p ps IH]; [done|]. cbn [List.filter].
  destruct (confirmedPatient p); cbn [andb]; [|done].
  destruct (existsb _ days); cbn [length]; lia.
Qed.

(** The counts of a series add up to the number of the confirmed records
    announced on one of its days, when these are printed all differently. *)
Lemma series_sum format patients firstDay lastDay :
  NoDup (seriesDays format firstDay lastDay) ->
  sum (generateDailyStatsForPrefecture format patients firstDay lastDay)
  = Z.of_nat (length (announcedOn (seriesDays format firstDay lastDay) patients)).
Proof.
  intros Hnd. rewrite generateDailyStatsForPrefecture_spec.
  transitivity
    (sum ((fun d => reportsOn d patients)
            <$> seriesDays format firstDay lastDay)).
  { unfold seriesDays. by rewrite <- list_fmap_compose. }
  unfold reportsOn, announcedOn.
  by rewrite (groups_count dateIs dateIs_one confirmedPatient).
Qed.



(** X14.  When the calendar prints the days of every series all
    differently, the series of a prefecture of the result adds up to no
    more than its confirmed, and to confirmed when every confirmed record
    of the prefecture is announced on a day of the series. *)
Theorem generatePrefectureSummary_series_total
    moment format clock patients manualPrefectureData e series :
  (forall i, NoDup (seriesDays format (moment "2020-01-08") (clock i))) ->
  e ∈ generatePrefectureSummary moment format clock patients manualPrefectureData ->
  Prefecture.dailyConfirmedCount e = Some series ->
  0 <= sum series <= Prefecture.confirmed e
  /\ ((forall p i, p ∈ patients -> confirmedPatient p = true ->
         exists d, d ∈ seriesDays format (moment "2020-01-08") (clock i)
                   /\ dateAnnounced p = Some d) ->
      sum series = Prefecture.confirmed e).
Proof.
  intros Hnd He Hseries.
  apply generatePrefectureSummary_entry in He
    as (k & i & _ & _ & Hc & _ & Hdaily).
  cbn zeta in Hdaily.
  destruct (0 <? length _)%nat;
    destruct Hdaily as (Hd & _); rewrite Hd in Hseries; [|done].
  injection Hseries as <-. rewrite Hc.
  pose proof (series_sum format (regionOf k patients) (moment "2020-01-08")
                (clock i) (Hnd i)) as Hsum.
  split; [split; [|rewrite Hsum; apply announcedOn_le]|].
  - rewrite generateDailyStatsForPrefecture_spec. apply sum_fmap_nonneg.
    intros n. unfold reportsOn. lia.
  - intros Hall. rewrite Hsum. unfold announcedOn, confirmedIn. f_equal.
    apply filter_length_ext. intros p Hp.
    destruct (confirmedPatient p) eqn:Hconf; [|done]. cbn [andb].
    apply list_elem_of_In, List.filter_In in Hp as [Hp _].
    apply list_elem_of_In in Hp.
    destruct (Hall p i Hp Hconf) as (d & Hd' & Hdate).
    apply existsb_exists. exists d. split; [by apply list_elem_of_In|].
    by apply dateIs_true.
Qed.

Lemma generatePrefectureSummary_series_total_witness :
  exists e series,
    generatePrefectureSummary (Calendar.moment 540) (Calendar.format 540)
      tenthOfMarch threeRegions [] !! 0%nat = Some e
    /\ Prefecture.dailyConfirmedCount e = Some series
    /\ sum series = 20.
Proof.
  destruct (generatePrefectureSummary (Calendar.moment 540)
              (Calendar.format 540) tenthOfMarch threeRegions [] !! 0%nat)
    as [e|] eqn:E; [|by vm_compute in E].
  apply list_elem_of_lookup_2 in E as Hin.
  destruct (Prefecture.dailyConfirmedCount e) as [series|] eqn:Hs;
    [|vm_compute in E; injection E as <-; by vm_compute in Hs].
  assert (Hnd : forall i, NoDup (seriesDays (Calendar.format 540)
                                  (Calendar.moment 540 "2020-01-08")
                                  (tenthOfMarch i))).
  { intros i. apply (bool_decide_unpack _). by vm_compute. }
  destruct (generatePrefectureSummary_series_total _ _ _ _ _ _ _ Hnd Hin Hs)
    as [_ Hall].
  exists e, series. split; [done|]. split; [done|].
  rewrite Hall; [vm_compute in E; by injection E as <-|].
  intros p i Hp _.
  assert (Hdates : Forall (fun p => exists d,
             d ∈ seriesDays (Calendar.format 540)
                   (Calendar.moment 540 "2020-01-08") (tenthOfMarch i)
             /\ dateAnnounced p = Some d) threeRegions).
  { repeat (apply Forall_cons; split;
            [eexists; split; [|reflexivity];
             apply (bool_decide_unpack _); by vm_compute|]).
    apply Forall_nil_2. }
  by apply (proj1 (Forall_forall _ _) Hdates).
Defined.

(** ** The days share the dated records *)




(** ** The order of the prefectures with the same count *)









(** ** How often verifyPatients reports an id *)

Lemma verifyPatients_loop_count patients :
  forall patientIds duplicates,
    foldl verifyPatientsStep (∅, []) patients = (patientIds, duplicates) ->
    forall id,
      length (List.filter (Z.eqb id) duplicates)
      = if id =? -1 then 0%nat else Nat.pred (occurrences id patients).
Proof.
  induction patients as [|p patients IH] using rev_ind; intros m dups.
  - intros [= <- <-] id. cbn. by destruct (id =? -1).
  - rewrite foldl_snoc.
    destruct (foldl verifyPatientsStep (∅, []) patients) as [m0 d0] eqn:E0.
    pose proof (IH m0 d0 eq_refl) as Hcount.
    destruct (verifyPatients_loop patients m0 d0 E0) as [Hm _]. clear IH.
    unfold verifyPatientsStep.
    destruct (Z.eqb_spec (patientId p) (-1)) as [Hsent | Hsent].
    + intros [= <- <-] id. rewrite Hcount, occurrences_snoc.
      destruct (Z.eqb_spec id (-1)) as [|Hid]; [done|].
      destruct (Z.eqb_spec (patientId p) id); [congruence|].
      by rewrite Nat.add_0_r.
    + intros [= <- <-] id. rewrite occurrences_snoc.
      destruct (m0 !! patientId p) as [v|] eqn:Elook.
      * assert (Hocc : (1 <= occurrences (patientId p) patients)%nat).
        { apply Hm. by eexists. }
        rewrite List.filter_app, length_app, Hcount. cbn [List.filter].
        rewrite (Z.eqb_sym id (patientId p)).
        destruct (Z.eqb_spec (patientId p) id) as [<-|Hne].
        -- destruct (Z.eqb_spec (patientId p) (-1)); [done|].
           cbn [length]. lia.
        -- cbn [length]. by rewrite !Nat.add_0_r.
      * assert (Hocc : occurrences (patientId p) patients = 0%nat).
        { destruct (occurrences (patientId p) patients) eqn:Eo; [done|].
          assert (Hs : is_Some (m0 !! patientId p)) by (apply Hm; lia).
          rewrite Elook in Hs. by destruct Hs. }
        rewrite Hcount.
        destruct (Z.eqb_spec id (-1)) as [|Hid]; [done|].
        destruct (Z.eqb_spec (patientId p) id) as [<-|Hne].
        -- rewrite Hocc. done.
        -- by rewrite Nat.add_0_r.
Qed.

(** X17.  When verifyPatients throws, its message lists an id once for
    each of its occurrences after the first: an id other than -1 that
    occurs n times among the patients is listed n - 1 times, and -1 is
    never listed. *)
Theorem verifyPatients_duplicates_count patients duplicates id :
  verifyPatients patients = Throw (DuplicateCaseId duplicates) ->
  length (List.filter (Z.eqb id) duplicates)
  = if id =? -1 then 0%nat else Nat.pred (occurrences id patients).
Proof.
  unfold verifyPatients.
  destruct (foldl verifyPatientsStep (∅, []) patients) as [m dups] eqn:E.
  destruct (0 <? length dups)%nat; [|done].
  intros [= <-]. by eapply verifyPatients_loop_count.
Qed.

Lemma verifyPatients_duplicates_count_witness :
  exists duplicates,
    verifyPatients
      ((fun id => mkPatient id None true "" "Tokyo" None 0 0)
         <$> [7; -1; 7; 8; -1; 7])
    = Throw (DuplicateCaseId duplicates)
    /\ length (List.filter (Z.eqb 7) duplicates) = 2%nat
    /\ length (List.filter (Z.eqb (-1)) duplicates) = 0%nat.
Proof.
  set (patients := (fun id => mkPatient id None true "" "Tokyo" None 0 0)
                     <$> [7; -1; 7; 8; -1; 7]).
  assert (H : verifyPatients patients = Throw (DuplicateCaseId [7; 7]))
    by (by vm_compute).
  exists [7; 7]. split; [exact H|].
  split.
  - exact (verifyPatients_duplicates_count patients [7; 7] 7 H).
  - exact (verifyPatients_duplicates_count patients [7; 7] (-1) H).
Defined.

(** ** What verifyDailySummary never throws *)

(** X18.  verifyDailySummary never throws StaleCumulative, whatever the
    series and its latest day: the loop over the keys of the latest day
    visits the indices of the array of keys, and no index ends with
    Cumulative. *)
Theorem verifyDailySummary_never_StaleCumulative
    (string_lt_one : string -> bool) {A : Type} `{JSObject A}
    (dailySummary : list A) (key : string) :
  verifyDailySummary string_lt_one dailySummary <> Throw (StaleCumulative key).
Proof.
  rewrite verifyDailySummary_unfold.
  by destruct (length dailySummary <? 10)%nat.
Qed.

(** ** safeParseInt of a number *)













(** * summarize *)



(** The names and the counts of the result, up to their order. *)
Lemma namesAndCounts_of_keys moment format clock patients manualPrefectureData :
  namesAndCounts (generatePrefectureSummary moment format clock patients
                    manualPrefectureData)
  ≡ₚ (fun k => (Some k, confirmedIn (regionOf k patients)))
       <$> (foldl countPrefecturePatient [] patients).*1.
Proof.
  set (pair := fun o : option string =>
                 (o, match o with
                     | Some k => confirmedIn (regionOf k patients)
                     | None => 0
                     end)).
  transitivity
    (pair <$> (Prefecture.name
                 <$> generatePrefectureSummary moment format clock patients
                       manualPrefectureData)).
  { unfold namesAndCounts. rewrite <- list_fmap_compose.
    apply reflexive_eq. apply list_fmap_ext.
    intros i e He. apply list_elem_of_lookup_2 in He.
    apply generatePrefectureSummary_entry in He
      as (k & _ & Hname & _ & Hc & _).
    unfold pair. cbn [compose]. by rewrite Hname, Hc. }
  rewrite generatePrefectureSummary_names, <- list_fmap_compose. done.
Qed.

Lemma counted_keys_Permutation patients patients' :
  patients ≡ₚ patients' ->
  (foldl countPrefecturePatient [] patients).*1
  ≡ₚ (foldl countPrefecturePatient [] patients').*1.
Proof.
  intros Hp. apply NoDup_Permutation; [apply counted_NoDup..|].
  intros k. rewrite !counted_keys. by rewrite Hp.
Qed.

Lemma regionOf_confirmedIn_Permutation k patients patients' :
  patients ≡ₚ patients' ->
  confirmedIn (regionOf k patients) = confirmedIn (regionOf k patients').
Proof.
  intros Hp. unfold confirmedIn, regionOf. f_equal.
  apply Permutation_length. by do 2 apply filter_Permutation_In.
Qed.

(** X21.  The prefectures that summarize returns are in descending order
    of confirmed, and the sort of the patients changes neither their
    names nor their counts: they are those that generatePrefectureSummary
    gives for the patients as they come, at any clock, up to the order of
    the prefectures with the same count. *)
Theorem summarize_prefectures
    string_lt_one moment format clock clock'
    patientData manualDailyData manualPrefectureData lastUpdated s :
  summarize string_lt_one moment format clock
    patientData manualDailyData manualPrefectureData lastUpdated = Ok s ->
  (forall i j a b, (i < j)%nat ->
     Summary.prefectures s !! i = Some a ->
     Summary.prefectures s !! j = Some b ->
     Prefecture.confirmed b <= Prefecture.confirmed a)
  /\ namesAndCounts (Summary.prefectures s)
     ≡ₚ namesAndCounts (generatePrefectureSummary moment format clock'
                          patientData manualPrefectureData).
Proof.
  unfold summarize.
  pose proof (sortBy_Permutation dateAnnounced dateAnnouncedLe patientData)
    as Hp.
  destruct (generateDailySummary _ _ _) as [dailySummary|]; [|done].
  intros [= <-]. cbn [Summary.prefectures]. split.
  - intros i j x y. apply generatePrefectureSummary_descending.
  - rewrite !namesAndCounts_of_keys.
    rewrite (counted_keys_Permutation _ _ Hp).
    apply reflexive_eq. apply list_fmap_ext. intros i k _.
    by rewrite (regionOf_confirmedIn_Permutation k _ _ Hp).
Qed.

Lemma summarize_prefectures_witness :
  exists s,
    summarize (fun _ => false) (Calendar.moment 540) (Calendar.format 540)
      tenthOfMarch (reverse tenDays ++ threeRegions) [] [] "2020-03-10"
    = Ok s
    /\ namesAndCounts (Summary.prefectures s)
       ≡ₚ [(Some "Tokyo", 30); (Some "Aichi", 5); (Some "Osaka", 1)].
Proof.
  destruct (summarize (fun _ => false) (Calendar.moment 540)
              (Calendar.format 540) tenthOfMarch
              (reverse tenDays ++ threeRegions) [] [] "2020-03-10")
    as [s|] eqn:E; [|by vm_compute in E].
  exists s. split; [done|].
  destruct (summarize_prefectures _ _ _ _ tenthOfMarch _ _ _ _ _ E)
    as [_ H].
  rewrite H. apply reflexive_eq. by vm_compute.
Defined.
